(** * Seat allocation of the exam-hall seating demo

    A shallow embedding of the state handlers of the page component
    [Index] (hall reconfiguration, recognised-student placement, the
    next-free-seat finder, the bulk allocator and the export) and of the
    submit handlers of the two forms ([ExamHallConfig],
    [StudentRegistration]), followed by the properties of the seating
    specification.

    Modelling conventions.
    - A TypeScript [number] that holds a row or seat count is a [Z]: the
      form fills these fields with [parseInt(..) || 0], so they are
      integers, possibly zero or negative.  [studentIndex] starts at 0 and
      is only incremented: it is a [nat].
    - [Student | null] is [option Student]; an object is truthy, [null]
      is falsy.  [students[i]] is [nth_error students i].
    - The [for] loops recurse on the loop variable, with the distance to
      the bound as the measure, so every handler is a total function.
    - React state is an explicit record.  A handler reads the state of the
      render that created it and writes with [setX]; a functional update
      [setX(prev => ..)] is applied to the latest state.  Click and submit
      handlers run in the current render, so for them the two states are
      one.  [handleStudentRecognized] is called by the recognition stub
      after a two-second wait, from the render in which the scan was
      started: it takes the render it reads and the latest state it
      updates as two arguments.
    - [rows * seatsPerRow] is a product of doubles: [jsMultiply] rounds
      the exact product to the nearest double.
    - [Date.now()] and [new Date()] are read from parameters. *)

From Equations Require Import Equations.
From Stdlib Require Import ZArith List Bool Arith Lia String Ascii.
Import ListNotations.
Open Scope string_scope.
Open Scope list_scope.
Open Scope Z_scope.

(** ** Data model *)

Record Student := mkStudent {
  id : string;
  name : string;
  email : string;
  rollNumber : string;
  photo : option string
}.

Record ExamHallData := mkExamHallData {
  hallName : string;
  rows : Z;
  seatsPerRow : Z;
  totalSeats : Z
}.

Record SeatAssignment := mkSeatAssignment {
  row : Z;
  seat : Z;
  student : option Student
}.

(** The three [useState] cells of [Index]. *)
Record AppState := mkAppState {
  students : list Student;
  hallConfig : option ExamHallData;
  seatAssignments : list SeatAssignment
}.

Definition initialState : AppState := mkAppState [] None [].

(** The (row, seat) coordinate of an entry. *)
Definition coord (a : SeatAssignment) : Z * Z := (row a, seat a).

(** Truthiness of the [student] field. *)
Definition hasStudent (a : SeatAssignment) : bool :=
  match student a with Some _ => true | None => false end.

(** ** Number arithmetic *)

(** The double nearest to an integer, ties to even: integers up to 2^53 in
    magnitude are doubles; beyond, the 53 leading bits are kept.  (From
    2^1024 on the source has [Infinity], which an integer does not hold;
    no property below reads a product of that size.) *)
Definition roundToDouble (z : Z) : Z :=
  let m := Z.abs z in
  if m <? 2 ^ 53 then z
  else
    let e := Z.log2 m - 52 in
    let q := m / 2 ^ e in
    let r := m mod 2 ^ e in
    let half := 2 ^ (e - 1) in
    let q' := if (half <? r) || ((r =? half) && Z.odd q) then q + 1 else q in
    Z.sgn z * (q' * 2 ^ e).

(** [a * b] on numbers. *)
Definition jsMultiply (a b : Z) : Z := roundToDouble (a * b).

(** ** The hall-configuration form ([ExamHallConfig.tsx]) *)

Module ExamHallConfig.

(** The form's [formData] state cell. *)
Record FormData := mkFormData {
  name : string;
  rows : Z;
  seatsPerRow : Z
}.

(** The initial value of the [formData] cell:
    [currentConfig?.name || ''], [currentConfig?.rows || 10],
    [currentConfig?.seatsPerRow || 8]; the number 0 is falsy. *)
Definition initialFormData (currentConfig : option ExamHallData) : FormData :=
  match currentConfig with
  | None => mkFormData "" 10 8
  | Some (mkExamHallData cName cRows cSeatsPerRow _) =>
      mkFormData cName
        (if cRows =? 0 then 10 else cRows)
        (if cSeatsPerRow =? 0 then 8 else cSeatsPerRow)
  end.

(** What a run of [handleSubmit] does to the outside, in program order:
    toasts (title and whether the variant is "destructive"; the
    description text is left out) and calls of the [onHallConfigured]
    prop. *)
Inductive Effect :=
| Toast (title : string) (destructive : bool)
| OnHallConfigured (hallData : ExamHallData).

(** [const totalSeats = formData.rows * formData.seatsPerRow]. *)
Definition totalSeats (formData : FormData) : Z :=
  jsMultiply (rows formData) (seatsPerRow formData).

(** [handleSubmit]: JavaScript's [!formData.name] holds exactly for the
    empty string. *)
Definition handleSubmit (formData : FormData) : list Effect :=
  if String.eqb (name formData) ""
     || (rows formData <? 1) || (seatsPerRow formData <? 1)
  then [Toast "Invalid Configuration" true]
  else
    let hallData :=
      mkExamHallData (name formData) (rows formData) (seatsPerRow formData)
        (totalSeats formData) in
    [OnHallConfigured hallData; Toast "Hall Configured" false].

End ExamHallConfig.

(** ** The student-registration form ([StudentRegistration]) *)

Module StudentRegistration.

Record FormData := mkFormData {
  name : string;
  email : string;
  rollNumber : string
}.

(** The two state cells the submit handler reads and resets. *)
Record FormState := mkFormState {
  formData : FormData;
  photo : option string
}.

Inductive Effect :=
| Toast (title : string) (destructive : bool)
| OnStudentAdded (student : Student)
| SetFormData (fd : FormData)
| SetPhoto (p : option string).

(** Falsiness of a [string | null] value: [null] and the empty string. *)
Definition falsy (p : option string) : bool :=
  match p with
  | None => true
  | Some v => String.eqb v ""
  end.

(** [handleSubmit]; [now] is [Date.now().toString()]. *)
Definition handleSubmit (now : string) (fs : FormState) : list Effect :=
  if String.eqb (name (formData fs)) ""
     || String.eqb (email (formData fs)) ""
     || String.eqb (rollNumber (formData fs)) ""
     || falsy (photo fs)
  then [Toast "Missing Information" true]
  else
    let student :=
      mkStudent now (name (formData fs)) (email (formData fs))
        (rollNumber (formData fs)) (photo fs) in
    [OnStudentAdded student;
     SetFormData (mkFormData "" "" "");
     SetPhoto None;
     Toast "Student Registered" false].

(** The form's own state after the effects of a submit. *)
Definition applyToForm (fs : FormState) (e : Effect) : FormState :=
  match e with
  | SetFormData fd => mkFormState fd (photo fs)
  | SetPhoto p => mkFormState (formData fs) p
  | _ => fs
  end.

Definition formAfterSubmit (now : string) (fs : FormState) : FormState :=
  fold_left applyToForm (handleSubmit now fs) fs.

End StudentRegistration.

(** ** The page component ([Index]) *)

Module Index.

Definition handleStudentAdded (s : Student) (st : AppState) : AppState :=
  mkAppState (students st ++ [s]) (hallConfig st) (seatAssignments st).

(** Assignments are reset when the hall is reconfigured. *)
Definition handleHallConfigured (config : ExamHallData) (st : AppState)
    : AppState :=
  mkAppState (students st) (Some config) [].

(** The callback of [seatAssignments.some(..)] in the finder. *)
Definition isOccupied (assignments : list SeatAssignment) (r s : Z) : bool :=
  existsb
    (fun assignment =>
       (row assignment =? r) && (seat assignment =? s) && hasStudent assignment)
    assignments.

(** Inner loop of [findNextAvailableSeat]: the first free seat of row [r]
    from seat [s] on, if any. *)
Equations? findSeatLoop (assignments : list SeatAssignment) (nSeats : Z)
    (r s : Z) : option (Z * Z) by wf (Z.to_nat (nSeats + 1 - s)) lt :=
  findSeatLoop assignments nSeats r s with Z_le_dec s nSeats := {
    | right _ := None;
    | left _ with isOccupied assignments r s := {
      | false := Some (r, s);
      | true := findSeatLoop assignments nSeats r (s + 1) } }.
Proof. lia. Qed.

(** Outer loop of [findNextAvailableSeat]; a [return] in the inner loop
    leaves both. *)
Equations? findRowLoop (assignments : list SeatAssignment) (nRows nSeats : Z)
    (r : Z) : option (Z * Z) by wf (Z.to_nat (nRows + 1 - r)) lt :=
  findRowLoop assignments nRows nSeats r with Z_le_dec r nRows := {
    | right _ := None;
    | left _ with findSeatLoop assignments nSeats r 1 := {
      | Some found := Some found;
      | None := findRowLoop assignments nRows nSeats (r + 1) } }.
Proof. lia. Qed.

(** [findNextAvailableSeat]: [{row, seat}] is a pair, [null] is [None]. *)
Definition findNextAvailableSeat (st : AppState) : option (Z * Z) :=
  match hallConfig st with
  | None => None
  | Some cfg =>
      findRowLoop (seatAssignments st) (rows cfg) (seatsPerRow cfg) 1
  end.

(** [handleStudentRecognized]: [hallConfig] and the finder are read in
    [render], the state of the render that created the handler; the new
    entry is appended to the assignment list of [latest] through
    [setSeatAssignments(prev => [...prev, newAssignment])]. With no hall or
    no seat in [render] nothing is recorded. *)
Definition handleStudentRecognized (s : Student) (render latest : AppState)
    : AppState :=
  match hallConfig render with
  | None => latest
  | Some _ =>
      match findNextAvailableSeat render with
      | Some nextSeat =>
          let newAssignment :=
            mkSeatAssignment (fst nextSeat) (snd nextSeat) (Some s) in
          mkAppState (students latest) (hallConfig latest)
            (seatAssignments latest ++ [newAssignment])
      | None => latest
      end
  end.

(** *** The bulk allocator *)


(** Inner loop of [generateAutomaticSeating]:
    [for (seat; seat <= seatsPerRow && studentIndex < students.length; seat++)]
    pushing one entry and incrementing [studentIndex]. The result is the
    array and the index after the loop. *)
Equations? seatingSeatLoop (studs : list Student) (nSeats : Z) (r s : Z)
    (newAssignments : list SeatAssignment) (studentIndex : nat)
    : list SeatAssignment * nat by wf (Z.to_nat (nSeats + 1 - s)) lt :=
  seatingSeatLoop studs nSeats r s newAssignments studentIndex
    with Z_le_dec s nSeats := {
    | right _ := (newAssignments, studentIndex);
    | left _ with Nat.ltb studentIndex (List.length studs) := {
      | false := (newAssignments, studentIndex);
      | true :=
          seatingSeatLoop studs nSeats r (s + 1)
            (newAssignments ++
               [mkSeatAssignment r s (nth_error studs studentIndex)])
            (S studentIndex) } }.
Proof. lia. Qed.

(** Outer loop:
    [for (row; row <= rows && studentIndex < students.length; row++)]. *)
Equations? seatingRowLoop (studs : list Student) (nRows nSeats : Z) (r : Z)
    (newAssignments : list SeatAssignment) (studentIndex : nat)
    : list SeatAssignment by wf (Z.to_nat (nRows + 1 - r)) lt :=
  seatingRowLoop studs nRows nSeats r newAssignments studentIndex
    with Z_le_dec r nRows := {
    | right _ := newAssignments;
    | left _ with Nat.ltb studentIndex (List.length studs) := {
      | false := newAssignments;
      | true with seatingSeatLoop studs nSeats r 1 newAssignments studentIndex := {
        | (newAssignments', studentIndex') :=
            seatingRowLoop studs nRows nSeats (r + 1)
              newAssignments' studentIndex' } } }.
Proof. lia. Qed.

(** [generateAutomaticSeating]: nothing happens without a hall
    configuration; otherwise the assignment list is replaced by the
    freshly built one. *)
Definition generateAutomaticSeating (st : AppState) : AppState :=
  match hallConfig st with
  | None => st
  | Some cfg =>
      mkAppState (students st) (hallConfig st)
        (seatingRowLoop (students st) (rows cfg) (seatsPerRow cfg) 1 [] 0)
  end.

(** *** Export *)

(** The object handed to [JSON.stringify]. *)
Record ExportData := mkExportData {
  exp_hallConfig : option ExamHallData;
  exp_students : list Student;
  assignments : list SeatAssignment;
  generatedAt : string
}.

(** The downloaded artifact: the serialised object and the file name. *)
Record Download := mkDownload {
  content : ExportData;
  download : string
}.

(** [iso.split('T')[0]]: the text before the first ['T']. *)
Fixpoint beforeT (iso : string) : string :=
  match iso with
  | EmptyString => EmptyString
  | String c tl => if Ascii.eqb c "T" then EmptyString else String c (beforeT tl)
  end.

(** [hallConfig?.name || 'exam-hall']. *)
Definition exportHallName (cfg : option ExamHallData) : string :=
  match cfg with
  | None => "exam-hall"
  | Some c => if String.eqb (hallName c) "" then "exam-hall" else hallName c
  end.

(** [exportSeatingData]; [now1] and [now2] are the two readings of
    [new Date().toISOString()]. The handler sets no state. *)
Definition exportSeatingData (now1 now2 : string) (st : AppState) : Download :=
  let exportData :=
    mkExportData (hallConfig st) (students st)
      (filter hasStudent (seatAssignments st)) now1 in
  mkDownload exportData
    (String.append "seating-arrangement-"
       (String.append (exportHallName (hallConfig st))
          (String.append "-" (String.append (beforeT now2) ".json")))).

(** *** Wiring of the forms *)

(** [<ExamHallConfig onHallConfigured={handleHallConfigured} />]: the page
    state after a submit of the hall form. *)
Definition applyHallEffect (st : AppState) (e : ExamHallConfig.Effect)
    : AppState :=
  match e with
  | ExamHallConfig.OnHallConfigured hallData => handleHallConfigured hallData st
  | ExamHallConfig.Toast _ _ => st
  end.

Definition submitHallForm (formData : ExamHallConfig.FormData) (st : AppState)
    : AppState :=
  fold_left applyHallEffect (ExamHallConfig.handleSubmit formData) st.

(** [<StudentRegistration onStudentAdded={handleStudentAdded} />]. *)
Definition applyRegistrationEffect (st : AppState)
    (e : StudentRegistration.Effect) : AppState :=
  match e with
  | StudentRegistration.OnStudentAdded s => handleStudentAdded s st
  | _ => st
  end.

Definition submitRegistrationForm (now : string)
    (fs : StudentRegistration.FormState) (st : AppState) : AppState :=
  fold_left applyRegistrationEffect (StudentRegistration.handleSubmit now fs) st.

(** *** Events and reachable states *)

(** The operations that can change the page state. A recognition names
    the render whose handler the stub calls. *)
Inductive Event :=
| StudentAdded (s : Student)
| HallConfigured (config : ExamHallData)
| StudentRecognized (s : Student) (render : AppState)
| GenerateSeating
| ExportSeating.

(** The latest state [st] after the event. *)
Definition handle (e : Event) (st : AppState) : AppState :=
  match e with
  | StudentAdded s => handleStudentAdded s st
  | HallConfigured config => handleHallConfigured config st
  | StudentRecognized s render => handleStudentRecognized s render st
  | GenerateSeating => generateAutomaticSeating st
  | ExportSeating => st
  end.

(** The render a recognition reads is one the session went through: the
    current one, or an earlier one when the state changed while the scan
    was pending. *)
Definition captured (e : Event) (renders : list AppState) : Prop :=
  match e with
  | StudentRecognized _ render => In render renders
  | _ => True
  end.

(** The states of a session, latest first. *)
Inductive session : list AppState -> Prop :=
| session_start : session [initialState]
| session_step e st past :
    session (st :: past) -> captured e (st :: past) ->
    session (handle e st :: st :: past).

Definition reachable (st : AppState) : Prop :=
  exists past, session (st :: past).

(** The recognition reads the current render: no state change happened
    while its scan was pending. *)
Definition prompt (e : Event) (st : AppState) : Prop :=
  match e with
  | StudentRecognized _ render => render = st
  | _ => True
  end.

(** The states of the sessions in which every recognition is prompt. *)
Inductive promptReachable : AppState -> Prop :=
| promptReachable_initial : promptReachable initialState
| promptReachable_step e st :
    promptReachable st -> prompt e st -> promptReachable (handle e st).

End Index.

(** ** The seating chart ([SeatingChart]) *)

Module SeatingChart.

(** [getSeatAssignment]: the student of the first entry at (row, seat), as
    [assignments.find(..)] returns it; [null] when there is no such entry
    or its student is null. *)
Definition getSeatAssignment (assignments : list SeatAssignment) (r s : Z)
    : option Student :=
  match find (fun a => (row a =? r) && (seat a =? s)) assignments with
  | Some assignment => student assignment
  | None => None
  end.

(** [assignments.filter(a => a.student !== null).length]; no entry holds
    [undefined], since the allocator reads [students[i]] only for
    [i < students.length], so [!== null] and truthiness agree. *)
Definition assignedSeats (assignments : list SeatAssignment) : nat :=
  List.length (filter hasStudent assignments).

(** [rows * seatsPerRow], from the props. *)
Definition totalSeats (nRows nSeats : Z) : Z := jsMultiply nRows nSeats.

End SeatingChart.

(** ** The dashboard ([Dashboard.tsx]) *)

Module Dashboard.

Definition assignedSeats (st : AppState) : nat :=
  List.length (filter hasStudent (seatAssignments st)).

(** [hallConfig?.totalSeats || 0]. *)
Definition totalSeats (st : AppState) : Z :=
  match hallConfig st with
  | Some (mkExamHallData _ _ _ cTotalSeats) => cTotalSeats
  | None => 0
  end.

Inductive Effect :=
| Toast (title : string) (destructive : bool)
| OnGenerateSeating.

(** [handleGenerateSeating]. *)
Definition handleGenerateSeating (st : AppState) : list Effect :=
  match hallConfig st with
  | None => [Toast "Hall Not Configured" true]
  | Some _ =>
      if (List.length (students st) =? 0)%nat
      then [Toast "No Students" true]
      else [OnGenerateSeating; Toast "Seating Generated" false]
  end.

Inductive Status := warning | info | success.

Record SystemStatus := mkSystemStatus {
  status : Status;
  text : string
}.

(** [getSystemStatus] (the icon is left out). *)
Definition getSystemStatus (st : AppState) : SystemStatus :=
  match hallConfig st with
  | None => mkSystemStatus warning "Hall Not Configured"
  | Some _ =>
      if (List.length (students st) =? 0)%nat
      then mkSystemStatus warning "No Students Registered"
      else if (assignedSeats st =? 0)%nat
      then mkSystemStatus info "Ready for Seating Generation"
      else if (assignedSeats st <? List.length (students st))%nat
      then mkSystemStatus warning "Partial Assignment"
      else mkSystemStatus success "System Ready"
  end.

(** The list under "Recent Activity": [students.slice(-5).reverse()]. *)
Definition recentActivity (st : AppState) : list Student :=
  rev (skipn (List.length (students st) - 5) (students st)).

End Dashboard.

(** [<Dashboard onGenerateSeating={generateAutomaticSeating} />]: the page
    state after a click on "Generate Seating". *)
Definition applyDashboardEffect (st : AppState) (e : Dashboard.Effect)
    : AppState :=
  match e with
  | Dashboard.OnGenerateSeating => Index.generateAutomaticSeating st
  | Dashboard.Toast _ _ => st
  end.

Definition clickGenerateSeating (st : AppState) : AppState :=
  fold_left applyDashboardEffect (Dashboard.handleGenerateSeating st) st.

(** * Vocabulary of the properties *)

(** The entry the allocator builds for the student at index [i] of a hall
    with [nSeats] seats per row. *)
Definition rowMajorEntry (studs : list Student) (nSeats : Z) (i : nat)
    : SeatAssignment :=
  mkSeatAssignment (Z.of_nat i / nSeats + 1) (Z.of_nat i mod nSeats + 1)
    (nth_error studs i).

(** Number of seats of a hall; zero when a dimension is not positive. *)
Definition capacity (cfg : ExamHallData) : nat :=
  (Z.to_nat (rows cfg) * Z.to_nat (seatsPerRow cfg))%nat.

(** Seat [p] lies in the hall: rows and seats are numbered from 1. *)
Definition inHall (cfg : ExamHallData) (p : Z * Z) : Prop :=
  1 <= fst p <= rows cfg /\ 1 <= snd p <= seatsPerRow cfg.

(** Seat [p] comes before seat [q] in the scan: rows first, then seats. *)
Definition scannedBefore (p q : Z * Z) : Prop :=
  fst p < fst q \/ (fst p = fst q /\ snd p < snd q).

(** Some entry of the list binds seat [p] to a student. *)
Definition seatTaken (assignments : list SeatAssignment) (p : Z * Z) : Prop :=
  exists a, In a assignments /\ coord a = p /\ student a <> None.

(** The invariant of the assignment list: one entry per seat at most, and
    a student in every entry. *)
Definition wellSeated (st : AppState) : Prop :=
  NoDup (map coord (seatAssignments st)) /\
  Forall (fun a => hasStudent a = true) (seatAssignments st).

(** Every entry carries a student. *)
Definition allSeated (st : AppState) : Prop :=
  Forall (fun a => hasStudent a = true) (seatAssignments st).

(** A form submission, with its inputs. *)
Inductive Submission :=
| HallSubmission (formData : ExamHallConfig.FormData)
| RegistrationSubmission (now : string) (fs : StudentRegistration.FormState).

(** A required field is missing or a number is out of range. *)
Definition invalidSubmission (sub : Submission) : Prop :=
  match sub with
  | HallSubmission formData =>
      ExamHallConfig.name formData = "" \/
      ExamHallConfig.rows formData < 1 \/
      ExamHallConfig.seatsPerRow formData < 1
  | RegistrationSubmission _ fs =>
      StudentRegistration.name (StudentRegistration.formData fs) = "" \/
      StudentRegistration.email (StudentRegistration.formData fs) = "" \/
      StudentRegistration.rollNumber (StudentRegistration.formData fs) = "" \/
      StudentRegistration.photo fs = None
  end.

(** The run of the submit handler invokes the form's callback prop. *)
Definition invokesCallback (sub : Submission) : Prop :=
  match sub with
  | HallSubmission formData =>
      exists hallData,
        In (ExamHallConfig.OnHallConfigured hallData)
           (ExamHallConfig.handleSubmit formData)
  | RegistrationSubmission now fs =>
      exists s,
        In (StudentRegistration.OnStudentAdded s)
           (StudentRegistration.handleSubmit now fs)
  end.

(** The page state after the submission. *)
Definition submit (sub : Submission) (st : AppState) : AppState :=
  match sub with
  | HallSubmission formData => Index.submitHallForm formData st
  | RegistrationSubmission now fs => Index.submitRegistrationForm now fs st
  end.

(** The cells of the submitted form before and after the submission; the
    hall form sets none of its cells on submit. *)
Definition formBefore (sub : Submission)
    : option StudentRegistration.FormState :=
  match sub with
  | HallSubmission _ => None
  | RegistrationSubmission _ fs => Some fs
  end.

Definition formAfter (sub : Submission)
    : option StudentRegistration.FormState :=
  match sub with
  | HallSubmission _ => None
  | RegistrationSubmission now fs =>
      Some (StudentRegistration.formAfterSubmit now fs)
  end.

(** The events of the user interface: a form is submitted, the recognition
    stub reports a student, "Generate Seating" or "Export Arrangement" is
    clicked. *)
Inductive UiEvent :=
| Submitted (sub : Submission)
| Recognized (s : Student) (render : AppState)
| GenerateClicked
| ExportClicked.

Definition uiHandle (e : UiEvent) (st : AppState) : AppState :=
  match e with
  | Submitted sub => submit sub st
  | Recognized s render => Index.handleStudentRecognized s render st
  | GenerateClicked => clickGenerateSeating st
  | ExportClicked => st
  end.

(** The stub reports a student of the list it was rendered with, to the
    handler of that render: the current one or an earlier one. *)
Definition uiCaptured (e : UiEvent) (renders : list AppState) : Prop :=
  match e with
  | Recognized s render => In render renders /\ In s (students render)
  | _ => True
  end.

(** The states of a session of the user interface, latest first. *)
Inductive uiHistory : list AppState -> Prop :=
| uiHistory_start : uiHistory [initialState]
| uiHistory_step e st past :
    uiHistory (st :: past) -> uiCaptured e (st :: past) ->
    uiHistory (uiHandle e st :: st :: past).

(** The states the page can be brought to through its user interface. *)
Definition uiReachable (st : AppState) : Prop :=
  exists past, uiHistory (st :: past).

(** A student record as the registration form lets it through. *)
Definition completeStudent (s : Student) : Prop :=
  name s <> "" /\ email s <> "" /\ rollNumber s <> "" /\
  exists p, photo s = Some p /\ p <> "".

(** A hall configuration as the hall form lets it through. *)
Definition validHall (cfg : ExamHallData) : Prop :=
  hallName cfg <> "" /\ 1 <= rows cfg /\ 1 <= seatsPerRow cfg /\
  totalSeats cfg = jsMultiply (rows cfg) (seatsPerRow cfg).

(** What the two forms let through is all that the student list and the
    hall configuration ever hold. *)
Definition validated (st : AppState) : Prop :=
  Forall completeStudent (students st) /\
  forall cfg, hallConfig st = Some cfg -> validHall cfg.

(** Position of a seat in the row-major numbering of a hall with [nSeats]
    seats per row, from 0. *)
Definition seatIndex (nSeats : Z) (p : Z * Z) : Z :=
  (fst p - 1) * nSeats + (snd p - 1).

(** The entries all lie in the configured hall; without a hall there is
    no entry. *)
Definition seatedInHall (st : AppState) : Prop :=
  match hallConfig st with
  | Some cfg => Forall (fun a => inHall cfg (coord a)) (seatAssignments st)
  | None => seatAssignments st = []
  end.

(** The recognised students of a list are placed one after the other,
    each by the handler of the render that follows the previous
    placement. *)
Definition recognizeAll (l : list Student) (st : AppState) : AppState :=
  fold_left (fun st' s => Index.handleStudentRecognized s st' st') l st.

(** ** Sample data *)

Definition studentA : Student := mkStudent "1" "A" "a@exam.test" "R-1" (Some "data:a").
Definition studentB : Student := mkStudent "2" "B" "b@exam.test" "R-2" (Some "data:b").
Definition studentC : Student := mkStudent "3" "C" "c@exam.test" "R-3" (Some "data:c").

Definition hall2x2 : ExamHallData := mkExamHallData "Hall" 2 2 4.
Definition hall1x2 : ExamHallData := mkExamHallData "Annex" 1 2 2.

(** Three students in a hall of four seats, nothing assigned yet. *)
Definition threeInFour : AppState :=
  mkAppState [studentA; studentB; studentC] (Some hall2x2) [].

(** Three students and a hall of two seats. *)
Definition threeInTwo : AppState :=
  mkAppState [studentA; studentB; studentC] (Some hall1x2) [].

(** No student, a hall of four seats. *)
Definition noneInFour : AppState := mkAppState [] (Some hall2x2) [].

(** Every seat of the 2 x 2 hall taken except (1,1). *)
Definition allButFirst : AppState :=
  mkAppState [studentA; studentB; studentC] (Some hall2x2)
    [mkSeatAssignment 1 2 (Some studentA);
     mkSeatAssignment 2 1 (Some studentB);
     mkSeatAssignment 2 2 (Some studentC)].

(** A freshly configured 2 x 2 hall. *)
Definition emptyHall : AppState :=
  Index.handle (Index.HallConfigured hall2x2) initialState.

(** The hall is configured, three students register and seating is
    generated: seat (2,2) is still free. *)
Definition seatedThree : AppState :=
  Index.handle Index.GenerateSeating
    (Index.handle (Index.StudentAdded studentC)
       (Index.handle (Index.StudentAdded studentB)
          (Index.handle (Index.StudentAdded studentA) emptyHall))).

(** A session: after that, the fourth seat goes to a recognised student. *)
Definition sampleSession : AppState :=
  Index.handle (Index.StudentRecognized studentB seatedThree) seatedThree.

(** One student in the 2 x 2 hall, and two scans started in that render:
    the state after the first has reported, and after the second. *)
Definition oneRegistered : AppState :=
  Index.handle (Index.StudentAdded studentA) emptyHall.

Definition firstScanDone : AppState :=
  Index.handle (Index.StudentRecognized studentA oneRegistered) oneRegistered.

Definition secondScanDone : AppState :=
  Index.handle (Index.StudentRecognized studentA oneRegistered) firstScanDone.

(** The 1 x 2 hall after bulk allocation of three students: it is full. *)
Definition fullAnnex : AppState := Index.generateAutomaticSeating threeInTwo.

(** A hall form with no name, and a registration form with no photo. *)
Definition unnamedHall : Submission :=
  HallSubmission (ExamHallConfig.mkFormData "" 10 8).

Definition noPhoto : Submission :=
  RegistrationSubmission "1700000000000"
    (StudentRegistration.mkFormState
       (StudentRegistration.mkFormData "A" "a@exam.test" "R-1") None).

(** A filled-in hall form and a filled-in registration form. *)
Definition mainHallForm : ExamHallConfig.FormData :=
  ExamHallConfig.mkFormData "Main Hall" 10 8.

Definition completeForm : StudentRegistration.FormState :=
  StudentRegistration.mkFormState
    (StudentRegistration.mkFormData "A" "a@exam.test" "R-1") (Some "data:a").

(** The student the complete form registers. *)
Definition registeredA : Student :=
  mkStudent "1700000000000" "A" "a@exam.test" "R-1" (Some "data:a").

(** A session of the user interface: the hall form and the registration
    form are submitted, seating is generated, and the student is
    recognised once more. *)
Definition uiGenerated : AppState :=
  uiHandle GenerateClicked
    (uiHandle (Submitted (RegistrationSubmission "1700000000000" completeForm))
       (uiHandle (Submitted (HallSubmission mainHallForm)) initialState)).

Definition uiSession : AppState :=
  uiHandle (Recognized registeredA uiGenerated) uiGenerated.

(** Build a session from the events that a state is written with. *)
Ltac session_of :=
  first [ apply Index.session_start
        | eapply Index.session_step;
          [ session_of | cbn [Index.captured In]; auto 10 ] ].

Ltac prompt_session_of :=
  first [ apply Index.promptReachable_initial
        | apply Index.promptReachable_step;
          [ prompt_session_of | first [ exact I | reflexivity ] ] ].

Ltac ui_session_of :=
  first [ apply uiHistory_start
        | eapply uiHistory_step;
          [ ui_session_of
          | first [ exact I
                  | split; [ cbn [In]; auto 10 | vm_compute; auto 10 ] ] ] ].

(** Turn the boolean tests of the loop guards into propositions. *)
Ltac guards :=
  repeat match goal with
  | H : (_ <? _)%nat = true |- _ => apply Nat.ltb_lt in H
  | H : (_ <? _)%nat = false |- _ => apply Nat.ltb_ge in H
  end.

(** * Properties of the loops *)

(** ** The bulk allocator in closed form *)

Section BulkAllocator.

Import Index.

Variable studs : list Student.

Lemma seq_snoc_start (a n : nat) : seq a (S n) = a :: seq (S a) n.
Proof. reflexivity. Qed.

Lemma seatingSeatLoop_closed (nSeats r s : Z) (acc : list SeatAssignment)
    (idx : nat) :
  seatingSeatLoop studs nSeats r s acc idx =
  let m := Nat.min (Z.to_nat (nSeats + 1 - s)) (List.length studs - idx) in
  (acc ++ map (fun k => mkSeatAssignment r (s + Z.of_nat k)
                          (nth_error studs (idx + k))) (seq 0 m),
   (idx + m)%nat).
Proof.
  funelim (seatingSeatLoop studs nSeats r s acc idx); cbn zeta.
  - replace (Z.to_nat (nSeats + 1 - s)) with 0%nat by lia.
    cbn. rewrite app_nil_r. f_equal. lia.
  - guards.
    match goal with IH : seatingSeatLoop _ _ _ _ _ _ = (_, _) |- _ => rewrite IH end.
    replace (Z.to_nat (nSeats + 1 - s)) with (S (Z.to_nat (nSeats + 1 - (s + 1))))
      by lia.
    replace (List.length studs - studentIndex)%nat
      with (S (List.length studs - S studentIndex)) by lia.
    rewrite <- Nat.succ_min_distr.
    set (m := Nat.min _ _).
    rewrite seq_snoc_start, <- seq_shift. cbn [map].
    rewrite map_map, <- app_assoc. cbn [app].
    rewrite Z.add_0_r, Nat.add_0_r.
    f_equal; [ | lia ].
    f_equal. f_equal.
    apply map_ext. intros k.
    f_equal; [ lia | f_equal; lia ].
  - guards.
    replace (List.length studs - studentIndex)%nat with 0%nat by lia.
    rewrite Nat.min_0_r. cbn. rewrite app_nil_r. f_equal. lia.
Qed.

(** Once every student is placed the outer loop stops. *)
Lemma seatingRowLoop_done (nRows nSeats r : Z) (acc : list SeatAssignment)
    (idx : nat) :
  (List.length studs <= idx)%nat ->
  seatingRowLoop studs nRows nSeats r acc idx = acc.
Proof.
  funelim (seatingRowLoop studs nRows nSeats r acc idx); intros Hidx;
    try reflexivity.
  guards. lia.
Qed.

(** A hall without seats in its rows gets no entry. *)
Lemma seatingRowLoop_no_seats (nRows nSeats r : Z) (acc : list SeatAssignment)
    (idx : nat) :
  nSeats < 1 ->
  seatingRowLoop studs nRows nSeats r acc idx = acc.
Proof.
  funelim (seatingRowLoop studs nRows nSeats r acc idx); intros Hs;
    try reflexivity.
  match goal with
  | H : seatingSeatLoop _ _ _ _ _ _ = (_, _) |- _ =>
      rewrite seatingSeatLoop_closed in H; cbn zeta in H;
      replace (Z.to_nat (nSeats + 1 - 1)) with 0%nat in H by lia;
      cbn in H; rewrite app_nil_r, Nat.add_0_r in H; inversion H; subst
  end.
  match goal with IH : _ -> seatingRowLoop _ _ _ _ _ _ = _ |- _ => apply IH end.
  exact Hs.
Qed.

(** Row [r], seat [1 + k] is the seat of index [(r - 1) * nSeats + k]. *)
Lemma rowMajorEntry_in_row (nSeats r : Z) (idx k : nat) :
  1 <= nSeats ->
  Z.of_nat idx = (r - 1) * nSeats ->
  Z.of_nat k < nSeats ->
  mkSeatAssignment r (1 + Z.of_nat k) (nth_error studs (idx + k)) =
  rowMajorEntry studs nSeats (idx + k).
Proof.
  intros Hs Hidx Hk. unfold rowMajorEntry.
  assert (Hq : Z.of_nat (idx + k) / nSeats = r - 1).
  { symmetry. apply Z.div_unique with (r := Z.of_nat k); lia. }
  assert (Hm : Z.of_nat (idx + k) mod nSeats = Z.of_nat k).
  { symmetry. apply Z.mod_unique with (q := r - 1); lia. }
  rewrite Hq, Hm. f_equal; lia.
Qed.

Lemma map_seq_shift_start {A} (f : nat -> A) (a n : nat) :
  map (fun k => f (a + k)%nat) (seq 0 n) = map f (seq a n).
Proof.
  revert a. induction n as [|n IH]; intros a; [reflexivity|].
  cbn [seq map]. rewrite Nat.add_0_r. f_equal.
  rewrite <- seq_shift, map_map, <- IH.
  apply map_ext. intros k. f_equal. lia.
Qed.

(** The outer loop, entered at the first seat of row [r] with exactly the
    seats of the earlier rows taken, appends the students from [idx] on in
    row-major order until students or seats run out. *)
Lemma seatingRowLoop_closed (nRows nSeats r : Z) (acc : list SeatAssignment)
    (idx : nat) :
  1 <= nSeats ->
  1 <= r <= nRows + 1 ->
  Z.of_nat idx = (r - 1) * nSeats ->
  seatingRowLoop studs nRows nSeats r acc idx =
  acc ++ map (rowMajorEntry studs nSeats)
           (seq idx (Nat.min (List.length studs) (Z.to_nat (nRows * nSeats)) - idx)).
Proof.
  funelim (seatingRowLoop studs nRows nSeats r acc idx); intros Hs Hr Hidx.
  - replace (_ - studentIndex)%nat with 0%nat by nia.
    cbn. now rewrite app_nil_r.
  - guards.
    replace (_ - studentIndex)%nat with 0%nat by lia.
    cbn. now rewrite app_nil_r.
  - guards.
    match goal with
    | H : seatingSeatLoop _ _ _ _ _ _ = (_, _) |- _ =>
        rewrite seatingSeatLoop_closed in H; cbn zeta in H;
        replace (Z.to_nat (nSeats + 1 - 1)) with (Z.to_nat nSeats) in H by lia;
        apply pair_equal_spec in H; destruct H as [Hacc Hnext];
        subst newAssignments' studentIndex'
    end.
    set (m := Nat.min (Z.to_nat nSeats) (List.length studs - studentIndex)) in *.
    assert (Hrow :
      map (fun k => mkSeatAssignment r (1 + Z.of_nat k)
                      (nth_error studs (studentIndex + k))) (seq 0 m) =
      map (rowMajorEntry studs nSeats) (seq studentIndex m)).
    { rewrite <- (map_seq_shift_start (rowMajorEntry studs nSeats) studentIndex m).
      apply map_ext_in. intros k Hk.
      apply in_seq in Hk. apply rowMajorEntry_in_row; lia. }
    rewrite Hrow in *.
    destruct (Nat.le_gt_cases (Z.to_nat nSeats) (List.length studs - studentIndex))
      as [Hfull | Hpart].
    + (* the row is filled: the loop goes on with the next row *)
      assert (Hm : m = Z.to_nat nSeats) by (unfold m; lia).
      clearbody m.
      match goal with
      | IH : _ -> _ -> _ -> seatingRowLoop _ _ _ _ _ _ = _ |- _ =>
          rewrite IH by nia
      end.
      rewrite <- app_assoc, <- map_app, <- seq_app.
      do 3 f_equal. nia.
    + (* the students ran out inside the row *)
      assert (Hm : m = (List.length studs - studentIndex)%nat) by (unfold m; lia).
      rewrite seatingRowLoop_done by lia.
      do 3 f_equal. nia.
Qed.

(** A hall without rows gets no entry. *)
Lemma seatingRowLoop_no_rows (nRows nSeats r : Z) (acc : list SeatAssignment)
    (idx : nat) :
  nRows < r ->
  seatingRowLoop studs nRows nSeats r acc idx = acc.
Proof.
  funelim (seatingRowLoop studs nRows nSeats r acc idx); intros Hr;
    try reflexivity.
  lia.
Qed.

End BulkAllocator.

(** The allocator's output for any hall and any student list: the first
    [min N capacity] students, in row-major order. *)
Lemma generateAutomaticSeating_closed (st : AppState) (cfg : ExamHallData) :
  hallConfig st = Some cfg ->
  seatAssignments (Index.generateAutomaticSeating st) =
  map (rowMajorEntry (students st) (seatsPerRow cfg))
    (seq 0 (Nat.min (List.length (students st)) (capacity cfg))).
Proof.
  intros Hcfg. unfold Index.generateAutomaticSeating, capacity.
  rewrite Hcfg. cbn [seatAssignments].
  destruct (Z_lt_le_dec (seatsPerRow cfg) 1) as [Hs | Hs].
  - rewrite seatingRowLoop_no_seats by exact Hs.
    replace (Z.to_nat (seatsPerRow cfg)) with 0%nat by lia.
    now rewrite Nat.mul_0_r, Nat.min_0_r.
  - destruct (Z_lt_le_dec (rows cfg) 0) as [Hr | Hr].
    + rewrite seatingRowLoop_no_rows by lia.
      replace (Z.to_nat (rows cfg)) with 0%nat by lia.
      now rewrite Nat.mul_0_l, Nat.min_0_r.
    + rewrite seatingRowLoop_closed by lia.
      rewrite Z2Nat.inj_mul by lia.
      now rewrite Nat.sub_0_r.
Qed.

Lemma nth_error_map_seq {A} (f : nat -> A) (n i : nat) :
  (i < n)%nat -> nth_error (map f (seq 0 n)) i = Some (f i).
Proof.
  intros Hi. rewrite nth_error_map, nth_error_seq.
  destruct (Nat.ltb_spec i n); [reflexivity | lia].
Qed.

(** Distinct indices get distinct seats. *)
Lemma rowMajorEntry_coord_inj (studs : list Student) (nSeats : Z) (i j : nat) :
  1 <= nSeats ->
  coord (rowMajorEntry studs nSeats i) = coord (rowMajorEntry studs nSeats j) ->
  i = j.
Proof.
  unfold coord, rowMajorEntry. cbn [row seat]. intros Hs Heq.
  injection Heq as Hq Hm.
  pose proof (Z.div_mod (Z.of_nat i) nSeats ltac:(lia)) as Hi.
  pose proof (Z.div_mod (Z.of_nat j) nSeats ltac:(lia)) as Hj.
  assert (Z.of_nat i / nSeats = Z.of_nat j / nSeats) as Hq' by lia.
  assert (Z.of_nat i mod nSeats = Z.of_nat j mod nSeats) as Hm' by lia.
  rewrite Hq', Hm' in Hi. lia.
Qed.

Lemma rowMajor_coords_NoDup (studs : list Student) (nSeats : Z) (n : nat) :
  1 <= nSeats ->
  NoDup (map coord (map (rowMajorEntry studs nSeats) (seq 0 n))).
Proof.
  intros Hs. rewrite map_map.
  apply NoDup_map_NoDup_ForallPairs; [ | apply seq_NoDup ].
  intros i j _ _ Heq. now apply rowMajorEntry_coord_inj in Heq.
Qed.

(** The allocator never puts two entries on one seat, whatever the hall. *)
Lemma generateAutomaticSeating_NoDup (st : AppState) :
  NoDup (map coord (seatAssignments st)) ->
  NoDup (map coord (seatAssignments (Index.generateAutomaticSeating st))).
Proof.
  intros Hst.
  destruct (hallConfig st) as [cfg|] eqn:Hcfg.
  - rewrite (generateAutomaticSeating_closed st cfg Hcfg).
    destruct (Z_lt_le_dec (seatsPerRow cfg) 1) as [Hs | Hs].
    + unfold capacity. replace (Z.to_nat (seatsPerRow cfg)) with 0%nat by lia.
      rewrite Nat.mul_0_r, Nat.min_0_r. constructor.
    + now apply rowMajor_coords_NoDup.
  - unfold Index.generateAutomaticSeating. now rewrite Hcfg.
Qed.

(** Every entry the allocator builds carries a student. *)
Lemma generateAutomaticSeating_hasStudent (st : AppState) (cfg : ExamHallData) :
  hallConfig st = Some cfg ->
  Forall (fun a => hasStudent a = true)
    (seatAssignments (Index.generateAutomaticSeating st)).
Proof.
  intros Hcfg. rewrite (generateAutomaticSeating_closed st cfg Hcfg).
  apply Forall_forall. intros a Ha.
  apply in_map_iff in Ha as (i & <- & Hi). apply in_seq in Hi.
  unfold hasStudent, rowMajorEntry. cbn [student].
  destruct (nth_error (students st) i) eqn:Hnth; [reflexivity|].
  apply nth_error_None in Hnth. lia.
Qed.

(** ** The next-free-seat finder *)

Lemma isOccupied_seatTaken (assignments : list SeatAssignment) (r s : Z) :
  Index.isOccupied assignments r s = true <-> seatTaken assignments (r, s).
Proof.
  unfold Index.isOccupied, seatTaken, coord, hasStudent.
  rewrite existsb_exists. split.
  - intros (a & Hin & Ha).
    apply andb_prop in Ha as [Ha Hst]. apply andb_prop in Ha as [Hr Hs].
    apply Z.eqb_eq in Hr, Hs. exists a. repeat split; [assumption | congruence | ].
    destruct (student a); [discriminate | discriminate].
  - intros (a & Hin & Hc & Hst). exists a. split; [assumption|].
    injection Hc as Hr Hs. rewrite Hr, Hs, !Z.eqb_refl.
    destruct (student a); [reflexivity | contradiction].
Qed.

Lemma isOccupied_free (assignments : list SeatAssignment) (r s : Z) :
  Index.isOccupied assignments r s = false <-> ~ seatTaken assignments (r, s).
Proof.
  rewrite <- isOccupied_seatTaken.
  destruct (Index.isOccupied assignments r s); split; congruence.
Qed.

(** The inner scan stops at the first free seat of the row at or after
    [s]; it finds none only when all of them are occupied. *)
Lemma findSeatLoop_spec (assignments : list SeatAssignment) (nSeats r s : Z) :
  match Index.findSeatLoop assignments nSeats r s with
  | Some p =>
      fst p = r /\ s <= snd p <= nSeats /\
      Index.isOccupied assignments r (snd p) = false /\
      forall t, s <= t < snd p -> Index.isOccupied assignments r t = true
  | None =>
      forall t, s <= t <= nSeats -> Index.isOccupied assignments r t = true
  end.
Proof.
  funelim (Index.findSeatLoop assignments nSeats r s).
  - intros t Ht. lia.
  - destruct (Index.findSeatLoop assignments nSeats r (s + 1)) as [p|].
    + destruct H as (Hr & Hs & Hfree & Hbefore).
      repeat split; try lia; try assumption.
      intros t Ht. destruct (Z.eq_dec t s) as [-> | Hne]; [assumption|].
      apply Hbefore. lia.
    + intros t Ht. destruct (Z.eq_dec t s) as [-> | Hne]; [assumption|].
      apply H. lia.
  - cbn [fst snd]. repeat split; try lia; try assumption; intros; lia.
Qed.

(** The outer scan returns the first free seat of the rows from [r] on. *)
Lemma findRowLoop_spec (assignments : list SeatAssignment) (nRows nSeats r : Z) :
  match Index.findRowLoop assignments nRows nSeats r with
  | Some p =>
      r <= fst p <= nRows /\ 1 <= snd p <= nSeats /\
      Index.isOccupied assignments (fst p) (snd p) = false /\
      forall t u, r <= t -> 1 <= u <= nSeats ->
        t < fst p \/ (t = fst p /\ u < snd p) ->
        Index.isOccupied assignments t u = true
  | None =>
      forall t u, r <= t <= nRows -> 1 <= u <= nSeats ->
        Index.isOccupied assignments t u = true
  end.
Proof.
  funelim (Index.findRowLoop assignments nRows nSeats r).
  - intros t u Ht. lia.
  - pose proof (findSeatLoop_spec assignments nSeats r 1) as Hrow.
    match goal with
    | H : Index.findSeatLoop _ _ _ _ = Some _ |- _ => rewrite H in Hrow
    end.
    destruct Hrow as (Hr & Hs & Hfree & Hbefore).
    rewrite Hr. repeat split; try lia; try assumption.
    intros t u Ht Hu [Hlt | [-> Hlt]]; [lia|].
    apply Hbefore. lia.
  - pose proof (findSeatLoop_spec assignments nSeats r 1) as Hrow.
    match goal with
    | H : Index.findSeatLoop _ _ _ _ = None |- _ => rewrite H in Hrow
    end.
    destruct (Index.findRowLoop assignments nRows nSeats (r + 1)) as [p|].
    + destruct H as (Hr & Hs & Hfree & Hbefore).
      repeat split; try lia; try assumption.
      intros t u Ht Hu Hlt.
      destruct (Z.eq_dec t r) as [-> | Hne]; [now apply Hrow|].
      apply Hbefore; lia.
    + intros t u Ht Hu.
      destruct (Z.eq_dec t r) as [-> | Hne]; [now apply Hrow|].
      apply H; lia.
Qed.

(** ** The invariant of the assignment list *)

Lemma NoDup_snoc {A} (l : list A) (x : A) :
  NoDup l -> ~ In x l -> NoDup (l ++ [x]).
Proof.
  induction 1 as [|y l Hy Hl IH]; intros Hx; cbn.
  - constructor; [intros [] | constructor].
  - constructor.
    + rewrite in_app_iff. intros [Hin | [-> | []]]; [contradiction|].
      apply Hx. now left.
    + apply IH. intros Hin. apply Hx. now right.
Qed.

Lemma hasStudent_true (a : SeatAssignment) :
  hasStudent a = true <-> student a <> None.
Proof.
  unfold hasStudent. destruct (student a); split; congruence.
Qed.

(** In a list whose entries all carry a student, a seat the finder sees
    as free has no entry at all. *)
Lemma free_seat_not_listed (assignments : list SeatAssignment) (p : Z * Z) :
  Forall (fun a => hasStudent a = true) assignments ->
  ~ seatTaken assignments p ->
  ~ In p (map coord assignments).
Proof.
  intros Hall Hfree Hin. apply Hfree.
  apply in_map_iff in Hin as (a & Hc & Ha). exists a.
  repeat split; try assumption.
  apply hasStudent_true. rewrite Forall_forall in Hall. now apply Hall.
Qed.

(** The seat the finder returns is free. *)
Lemma findNextAvailableSeat_free (st : AppState) (p : Z * Z) :
  Index.findNextAvailableSeat st = Some p ->
  ~ seatTaken (seatAssignments st) p.
Proof.
  unfold Index.findNextAvailableSeat. destruct (hallConfig st) as [cfg|];
    [ | discriminate ].
  intros Hfind.
  pose proof (findRowLoop_spec (seatAssignments st) (rows cfg) (seatsPerRow cfg) 1)
    as Hspec.
  rewrite Hfind in Hspec. destruct Hspec as (_ & _ & Hfree & _).
  apply isOccupied_free in Hfree. now destruct p.
Qed.

(** Whatever render the handler reads, the entry it appends carries the
    student. *)
Lemma handleStudentRecognized_allSeated (s : Student) (render latest : AppState) :
  allSeated latest -> allSeated (Index.handleStudentRecognized s render latest).
Proof.
  unfold allSeated, Index.handleStudentRecognized. intros Hall.
  destruct (hallConfig render); [ | exact Hall ].
  destruct (Index.findNextAvailableSeat render); [ | exact Hall ].
  cbn [seatAssignments]. apply Forall_app. split; [ exact Hall | ].
  now repeat constructor.
Qed.

Lemma generateAutomaticSeating_allSeated (st : AppState) :
  allSeated st -> allSeated (Index.generateAutomaticSeating st).
Proof.
  intros Hall. unfold allSeated.
  destruct (hallConfig st) as [cfg|] eqn:Hcfg.
  - now apply generateAutomaticSeating_hasStudent with cfg.
  - unfold Index.generateAutomaticSeating. now rewrite Hcfg.
Qed.

Lemma handle_allSeated (e : Index.Event) (st : AppState) :
  allSeated st -> allSeated (Index.handle e st).
Proof.
  destruct e; cbn [Index.handle]; intros Hst.
  - exact Hst.
  - constructor.
  - now apply handleStudentRecognized_allSeated.
  - now apply generateAutomaticSeating_allSeated.
  - exact Hst.
Qed.

Lemma session_allSeated (states : list AppState) :
  Index.session states -> Forall allSeated states.
Proof.
  induction 1 as [|e st past Hsession IH Hcaptured].
  - repeat constructor.
  - constructor; [ | exact IH ]. apply handle_allSeated.
    now apply Forall_inv in IH.
Qed.

Lemma reachable_allSeated (st : AppState) :
  Index.reachable st -> allSeated st.
Proof.
  intros [past Hsession]. apply session_allSeated in Hsession.
  now apply Forall_inv in Hsession.
Qed.

Lemma allSeated_filter (st : AppState) :
  allSeated st -> filter hasStudent (seatAssignments st) = seatAssignments st.
Proof.
  intros Hall. apply forallb_filter_id. apply forallb_forall.
  unfold allSeated in Hall. rewrite Forall_forall in Hall. exact Hall.
Qed.

(** A prompt recognition keeps the seats distinct: the seat its finder
    returns is free in the very list it appends to. *)
Lemma handleStudentRecognized_wellSeated (s : Student) (st : AppState) :
  wellSeated st -> wellSeated (Index.handleStudentRecognized s st st).
Proof.
  intros [Hnd Hall]. unfold Index.handleStudentRecognized.
  destruct (hallConfig st) as [cfg|] eqn:Hcfg; [ | now split ].
  destruct (Index.findNextAvailableSeat st) as [p|] eqn:Hfind; [ | now split ].
  apply findNextAvailableSeat_free in Hfind.
  split; cbn [seatAssignments].
  - rewrite map_app. cbn [map]. apply NoDup_snoc; [assumption|].
    unfold coord at 1. cbn [row seat]. rewrite <- surjective_pairing.
    now apply free_seat_not_listed.
  - apply Forall_app. split; [assumption|]. now repeat constructor.
Qed.

Lemma generateAutomaticSeating_wellSeated (st : AppState) :
  wellSeated st -> wellSeated (Index.generateAutomaticSeating st).
Proof.
  intros [Hnd Hall]. split.
  - now apply generateAutomaticSeating_NoDup.
  - now apply generateAutomaticSeating_allSeated.
Qed.

Lemma handle_wellSeated (e : Index.Event) (st : AppState) :
  Index.prompt e st -> wellSeated st -> wellSeated (Index.handle e st).
Proof.
  destruct e; cbn [Index.handle Index.prompt]; intros Hprompt Hst.
  - exact Hst.
  - split; cbn; constructor.
  - subst render. now apply handleStudentRecognized_wellSeated.
  - now apply generateAutomaticSeating_wellSeated.
  - exact Hst.
Qed.

Lemma promptReachable_wellSeated (st : AppState) :
  Index.promptReachable st -> wellSeated st.
Proof.
  induction 1 as [|e st Hreach IH Hprompt].
  - split; cbn; constructor.
  - now apply handle_wellSeated.
Qed.

(** A session of prompt recognitions is a session. *)
Lemma promptReachable_reachable (st : AppState) :
  Index.promptReachable st -> Index.reachable st.
Proof.
  induction 1 as [|e st Hreach [past IH] Hprompt].
  - exists []. constructor.
  - exists (st :: past). constructor; [ exact IH | ].
    destruct e; cbn in *; try exact I. left. now symmetry.
Qed.

(** * The properties of the seating specification *)

Lemma map_nth_error_seq {A} (l : list A) (n : nat) :
  (n <= List.length l)%nat ->
  map (nth_error l) (seq 0 n) = map Some (firstn n l).
Proof.
  revert n. induction l as [|x l IH]; intros [|n] Hn; cbn in *;
    try reflexivity; try lia.
  f_equal. rewrite <- seq_shift, map_map. apply IH. lia.
Qed.

(** C1. In a hall of R >= 1 rows and C >= 1 seats per row, for N <= R*C
    students the bulk allocator produces exactly N assignments, at
    pairwise-distinct coordinates, in row-major order from (1,1): the
    student at index i gets row i / C + 1, seat i mod C + 1. *)
Theorem generateAutomaticSeating_row_major (st : AppState) (cfg : ExamHallData) :
  hallConfig st = Some cfg ->
  1 <= rows cfg ->
  1 <= seatsPerRow cfg ->
  Z.of_nat (List.length (students st)) <= rows cfg * seatsPerRow cfg ->
  let out := seatAssignments (Index.generateAutomaticSeating st) in
  List.length out = List.length (students st) /\
  NoDup (map coord out) /\
  forall i s,
    nth_error (students st) i = Some s ->
    nth_error out i =
    Some (mkSeatAssignment (Z.of_nat i / seatsPerRow cfg + 1)
            (Z.of_nat i mod seatsPerRow cfg + 1) (Some s)).
Proof.
  intros Hcfg Hr Hs Hn out. subst out.
  rewrite (generateAutomaticSeating_closed st cfg Hcfg).
  assert (Hcap : Nat.min (List.length (students st)) (capacity cfg)
                 = List.length (students st)).
  { unfold capacity. apply Nat.min_l. nia. }
  rewrite Hcap. split; [ | split ].
  - now rewrite length_map, length_seq.
  - now apply rowMajor_coords_NoDup.
  - intros i s Hi.
    assert (i < List.length (students st))%nat
      by (apply nth_error_Some; congruence).
    rewrite nth_error_map_seq by assumption.
    unfold rowMajorEntry. now rewrite Hi.
Qed.

Lemma generateAutomaticSeating_row_major_witness :
  List.length (seatAssignments (Index.generateAutomaticSeating threeInFour)) = 3%nat /\
  NoDup (map coord (seatAssignments (Index.generateAutomaticSeating threeInFour))) /\
  forall i s,
    nth_error [studentA; studentB; studentC] i = Some s ->
    nth_error (seatAssignments (Index.generateAutomaticSeating threeInFour)) i =
    Some (mkSeatAssignment (Z.of_nat i / 2 + 1) (Z.of_nat i mod 2 + 1) (Some s)).
Proof.
  apply (generateAutomaticSeating_row_major threeInFour hall2x2);
    [ reflexivity | cbn; lia | cbn; lia | cbn; lia ].
Defined.

(** C2. In a hall of R rows and C seats per row, for N > R*C students the
    bulk allocator produces exactly R*C assignments, which carry the first
    R*C students in input order; the rest are dropped, and the handler
    still returns the next state (there is no error value). *)
Theorem generateAutomaticSeating_truncates (st : AppState) (cfg : ExamHallData) :
  hallConfig st = Some cfg ->
  0 <= rows cfg ->
  0 <= seatsPerRow cfg ->
  rows cfg * seatsPerRow cfg < Z.of_nat (List.length (students st)) ->
  let out := seatAssignments (Index.generateAutomaticSeating st) in
  Z.of_nat (List.length out) = rows cfg * seatsPerRow cfg /\
  map student out =
  map Some (firstn (Z.to_nat (rows cfg * seatsPerRow cfg)) (students st)) /\
  students (Index.generateAutomaticSeating st) = students st.
Proof.
  intros Hcfg Hr Hs Hn out. subst out.
  rewrite (generateAutomaticSeating_closed st cfg Hcfg).
  assert (Hcap : Nat.min (List.length (students st)) (capacity cfg)
                 = Z.to_nat (rows cfg * seatsPerRow cfg)).
  { unfold capacity. rewrite Z2Nat.inj_mul by lia. apply Nat.min_r. nia. }
  rewrite Hcap. split; [ | split ].
  - rewrite length_map, length_seq. lia.
  - rewrite map_map. cbn [rowMajorEntry student].
    apply map_nth_error_seq. lia.
  - unfold Index.generateAutomaticSeating. now rewrite Hcfg.
Qed.

Lemma generateAutomaticSeating_truncates_witness :
  Z.of_nat (List.length (seatAssignments (Index.generateAutomaticSeating threeInTwo))) = 1 * 2 /\
  map student (seatAssignments (Index.generateAutomaticSeating threeInTwo)) = map Some (firstn 2 [studentA; studentB; studentC]) /\
  students (Index.generateAutomaticSeating threeInTwo) =
  [studentA; studentB; studentC].
Proof.
  apply (generateAutomaticSeating_truncates threeInTwo hall1x2);
    [ reflexivity | cbn; lia | cbn; lia | cbn; lia ].
Defined.

(** The two examples of the specification, run on the allocator. *)
Example generateAutomaticSeating_three_in_four :
  seatAssignments (Index.generateAutomaticSeating threeInFour) =
  [mkSeatAssignment 1 1 (Some studentA);
   mkSeatAssignment 1 2 (Some studentB);
   mkSeatAssignment 2 1 (Some studentC)].
Proof. reflexivity. Qed.

Example generateAutomaticSeating_none_in_four :
  seatAssignments (Index.generateAutomaticSeating noneInFour) = [].
Proof. reflexivity. Qed.

(** C3, as stated, fails: for R = 2, C = 2 and three students the output
    has three entries; it is not the four-entry list ending in an empty
    (2,2), and no entry of it is at (2,2). For no student the output is
    empty, so no seat of the hall has an entry. *)
Lemma generateAutomaticSeating_omits_untaken_seats :
  Z.of_nat (List.length (students threeInFour)) < 2 * 2 /\
  inHall hall2x2 (2, 2) /\
  (seatAssignments (Index.generateAutomaticSeating threeInFour)) <>
  [mkSeatAssignment 1 1 (Some studentA);
   mkSeatAssignment 1 2 (Some studentB);
   mkSeatAssignment 2 1 (Some studentC);
   mkSeatAssignment 2 2 None] /\
  ~ (exists a, In a (seatAssignments (Index.generateAutomaticSeating threeInFour)) /\ coord a = (2, 2)) /\
  ~ (forall p, inHall hall2x2 p ->
       exists a,
         In a (seatAssignments (Index.generateAutomaticSeating noneInFour)) /\
         coord a = p).
Proof.
  rewrite generateAutomaticSeating_three_in_four,
    generateAutomaticSeating_none_in_four.
  split; [ cbn; lia | ].
  split; [ cbv; intuition discriminate | ].
  split; [ discriminate | ].
  split.
  - intros (a & Hin & Hc). cbn in Hin.
    destruct Hin as [<- | [<- | [<- | []]]]; discriminate Hc.
  - intros Hall. destruct (Hall (1, 1)) as (a & [] & _).
    cbv; intuition discriminate.
Qed.

(** C3, amended. In a hall of R rows and C seats per row, for N < R*C
    students the output has exactly N entries: the students in row-major
    order, each entry with its student; a seat of the hall after the
    first N (in row-major order) has no entry in the output. *)
Theorem generateAutomaticSeating_partial_fill (st : AppState)
    (cfg : ExamHallData) :
  hallConfig st = Some cfg ->
  0 <= rows cfg ->
  0 <= seatsPerRow cfg ->
  Z.of_nat (List.length (students st)) < rows cfg * seatsPerRow cfg ->
  let out := seatAssignments (Index.generateAutomaticSeating st) in
  List.length out = List.length (students st) /\
  (forall i s,
     nth_error (students st) i = Some s ->
     nth_error out i =
     Some (mkSeatAssignment (Z.of_nat i / seatsPerRow cfg + 1)
             (Z.of_nat i mod seatsPerRow cfg + 1) (Some s))) /\
  (forall a, In a out -> student a <> None) /\
  (forall p,
     inHall cfg p ->
     Z.of_nat (List.length (students st)) <=
       (fst p - 1) * seatsPerRow cfg + (snd p - 1) ->
     ~ exists a, In a out /\ coord a = p).
Proof.
  intros Hcfg Hr Hs Hn out.
  assert (Hs1 : 1 <= seatsPerRow cfg) by nia.
  pose proof (generateAutomaticSeating_hasStudent st cfg Hcfg) as Hall.
  fold out in Hall. revert Hall. subst out.
  rewrite (generateAutomaticSeating_closed st cfg Hcfg).
  assert (Hcap : Nat.min (List.length (students st)) (capacity cfg)
                 = List.length (students st)).
  { unfold capacity. apply Nat.min_l. nia. }
  rewrite Hcap. intros Hall. repeat split.
  - now rewrite length_map, length_seq.
  - intros i s Hi.
    assert (i < List.length (students st))%nat
      by (apply nth_error_Some; congruence).
    rewrite nth_error_map_seq by assumption.
    unfold rowMajorEntry. now rewrite Hi.
  - intros a Ha. apply hasStudent_true.
    rewrite Forall_forall in Hall. now apply Hall.
  - intros p Hp Hafter (a & Ha & Hc).
    apply in_map_iff in Ha as (i & <- & Hi). apply in_seq in Hi.
    unfold coord, rowMajorEntry in Hc. cbn [row seat] in Hc. subst p.
    cbn [fst snd] in Hafter.
    pose proof (Z.div_mod (Z.of_nat i) (seatsPerRow cfg) ltac:(lia)) as Hdm.
    nia.
Qed.

Lemma generateAutomaticSeating_partial_fill_witness :
  List.length (seatAssignments (Index.generateAutomaticSeating threeInFour)) = 3%nat /\
  (forall i s,
     nth_error [studentA; studentB; studentC] i = Some s ->
     nth_error (seatAssignments (Index.generateAutomaticSeating threeInFour)) i =
     Some (mkSeatAssignment (Z.of_nat i / 2 + 1) (Z.of_nat i mod 2 + 1)
             (Some s))) /\
  (forall a, In a (seatAssignments (Index.generateAutomaticSeating threeInFour)) -> student a <> None) /\
  (forall p,
     inHall hall2x2 p ->
     3 <= (fst p - 1) * 2 + (snd p - 1) ->
     ~ exists a, In a (seatAssignments (Index.generateAutomaticSeating threeInFour)) /\ coord a = p).
Proof.
  apply (generateAutomaticSeating_partial_fill threeInFour hall2x2);
    [ reflexivity | cbn; lia | cbn; lia | cbn; lia ].
Defined.

Lemma scan_order_total (p q : Z * Z) :
  scannedBefore p q \/ p = q \/ scannedBefore q p.
Proof.
  destruct p as [r s], q as [r' s']. unfold scannedBefore. cbn [fst snd].
  destruct (Z.lt_total r r') as [H | [H | H]];
    destruct (Z.lt_total s s') as [H' | [H' | H']]; subst; auto.
Qed.

(** C4. With a hall of R rows and C seats per row, the finder returns the
    first seat, in the scan order rows 1..R then seats 1..C, that no entry
    binds to a student, and returns nothing exactly when every seat of
    the hall is so bound; in particular it returns (1,1) whenever (1,1) is
    in the hall and free. *)
Theorem findNextAvailableSeat_first_free (st : AppState) (cfg : ExamHallData) :
  hallConfig st = Some cfg ->
  (forall p,
     Index.findNextAvailableSeat st = Some p <->
     inHall cfg p /\
     ~ seatTaken (seatAssignments st) p /\
     forall q, inHall cfg q -> scannedBefore q p ->
               seatTaken (seatAssignments st) q) /\
  (Index.findNextAvailableSeat st = None <->
   forall q, inHall cfg q -> seatTaken (seatAssignments st) q) /\
  (inHall cfg (1, 1) ->
   (forall q, inHall cfg q -> q <> (1, 1) -> seatTaken (seatAssignments st) q) ->
   ~ seatTaken (seatAssignments st) (1, 1) ->
   Index.findNextAvailableSeat st = Some (1, 1)).
Proof.
  intros Hcfg. unfold Index.findNextAvailableSeat. rewrite Hcfg.
  pose proof (findRowLoop_spec (seatAssignments st) (rows cfg) (seatsPerRow cfg) 1)
    as Hspec.
  set (found := Index.findRowLoop _ _ _ _) in *.
  assert (Hsound : forall p, found = Some p ->
            inHall cfg p /\ ~ seatTaken (seatAssignments st) p /\
            forall q, inHall cfg q -> scannedBefore q p ->
                      seatTaken (seatAssignments st) q).
  { intros p Hp. rewrite Hp in Hspec.
    destruct Hspec as (Hr & Hs & Hfree & Hbefore). destruct p as [r s].
    cbn [fst snd] in *.
    split; [ unfold inHall; cbn [fst snd]; lia | split ].
    - now apply isOccupied_free.
    - intros [t u] [Ht Hu] Hlt. unfold scannedBefore in Hlt.
      cbn [fst snd] in *. apply isOccupied_seatTaken. apply Hbefore; lia. }
  assert (Hfull : found = None ->
            forall q, inHall cfg q -> seatTaken (seatAssignments st) q).
  { intros Hnone [t u] [Ht Hu]. rewrite Hnone in Hspec. cbn [fst snd] in *.
    apply isOccupied_seatTaken. now apply Hspec. }
  assert (Hfirst : forall p,
            inHall cfg p -> ~ seatTaken (seatAssignments st) p ->
            (forall q, inHall cfg q -> scannedBefore q p ->
                       seatTaken (seatAssignments st) q) ->
            found = Some p).
  { intros p Hin Hfree Hbefore. destruct found as [p'|] eqn:Hfound.
    - destruct (Hsound p' eq_refl) as (Hin' & Hfree' & Hbefore').
      destruct (scan_order_total p p') as [Hlt | [-> | Hlt]].
      + exfalso. apply Hfree. now apply Hbefore'.
      + reflexivity.
      + exfalso. apply Hfree'. now apply Hbefore.
    - exfalso. apply Hfree. now apply Hfull. }
  split; [ | split ].
  - intros p. split; [ apply Hsound | ].
    intros (Hin & Hfree & Hbefore). now apply Hfirst.
  - split; [ apply Hfull | ].
    intros Hall. destruct found as [p|] eqn:Hfound; [ | reflexivity ].
    destruct (Hsound p eq_refl) as (Hin & Hfree & _).
    exfalso. apply Hfree. now apply Hall.
  - intros Hin _ Hfree. apply Hfirst; try assumption.
    intros [t u] [Ht Hu] Hlt. unfold scannedBefore in Hlt.
    cbn [fst snd] in *. lia.
Qed.

Lemma allButFirst_taken (q : Z * Z) :
  inHall hall2x2 q -> q <> (1, 1) -> seatTaken (seatAssignments allButFirst) q.
Proof.
  destruct q as [r s]. unfold inHall. cbn [fst snd hall2x2 rows seatsPerRow].
  intros [Hr Hs] Hne.
  assert (Hcases : (r = 1 /\ s = 2) \/ (r = 2 /\ s = 1) \/ (r = 2 /\ s = 2)).
  { destruct (Z.eq_dec r 1), (Z.eq_dec s 1); subst; try lia.
    now contradiction Hne. }
  destruct Hcases as [[-> ->] | [[-> ->] | [-> ->]]].
  - exists (mkSeatAssignment 1 2 (Some studentA)). cbn. intuition discriminate.
  - exists (mkSeatAssignment 2 1 (Some studentB)). cbn. intuition discriminate.
  - exists (mkSeatAssignment 2 2 (Some studentC)). cbn. intuition discriminate.
Qed.

Lemma allButFirst_first_free : ~ seatTaken (seatAssignments allButFirst) (1, 1).
Proof.
  intros (a & Hin & Hc & _). cbn in Hin.
  destruct Hin as [<- | [<- | [<- | []]]]; discriminate Hc.
Qed.

Lemma findNextAvailableSeat_first_free_witness :
  Index.findNextAvailableSeat allButFirst = Some (1, 1).
Proof.
  apply (findNextAvailableSeat_first_free allButFirst hall2x2 eq_refl).
  - cbv. intuition discriminate.
  - exact allButFirst_taken.
  - exact allButFirst_first_free.
Defined.

(** C5. The code does not keep the seats distinct. Two scans are started
    in the render that has one student and no assignment; the handler of
    that render is called when each of them reports. Both calls find
    (1,1) free in the list of that render, and both append to the latest
    list: the state is reachable and holds two entries at (1,1). *)
Theorem stale_recognition_duplicates_seat :
  Index.reachable secondScanDone /\
  seatAssignments secondScanDone =
    [mkSeatAssignment 1 1 (Some studentA);
     mkSeatAssignment 1 1 (Some studentA)] /\
  ~ NoDup (map coord (seatAssignments secondScanDone)).
Proof.
  split; [ | split ].
  - eexists. session_of.
  - reflexivity.
  - intros Hnd. change (NoDup [(1, 1); (1, 1)]) in Hnd.
    apply NoDup_cons_iff in Hnd as [Hin _]. apply Hin. now left.
Qed.

Lemma sampleSession_reachable : Index.reachable sampleSession.
Proof. eexists. session_of. Qed.

(** C6. Whatever the prior state and the new configuration, after
    [handleHallConfigured] the assignment list is empty (the new
    configuration is stored and the students are kept). *)
Theorem handleHallConfigured_resets (config : ExamHallData) (st : AppState) :
  seatAssignments (Index.handleHallConfigured config st) = [] /\
  hallConfig (Index.handleHallConfigured config st) = Some config /\
  students (Index.handleHallConfigured config st) = students st /\
  seatAssignments (Index.handle (Index.HallConfigured config) st) = [].
Proof. repeat split. Qed.

(** C7. When the finder returns no seat in the render the handler reads,
    [handleStudentRecognized] returns the latest state as it is: nothing
    is recorded, and there is no error value. *)
Theorem handleStudentRecognized_full_hall (s : Student)
    (render latest : AppState) :
  Index.findNextAvailableSeat render = None ->
  Index.handleStudentRecognized s render latest = latest.
Proof.
  intros Hfull. unfold Index.handleStudentRecognized.
  destruct (hallConfig render); [ now rewrite Hfull | reflexivity ].
Qed.

Lemma handleStudentRecognized_full_hall_witness :
  Index.handleStudentRecognized studentC fullAnnex fullAnnex = fullAnnex.
Proof.
  apply (handleStudentRecognized_full_hall studentC fullAnnex fullAnnex).
  reflexivity.
Defined.

(** C8. A submission with a missing required field or a number below 1
    (hall form: empty name, rows < 1, seats per row < 1; registration
    form: name, email, roll number or photo missing) never invokes the
    form's callback, and leaves the page state and the form's cells as
    they were. *)
Theorem invalid_submission_aborts (sub : Submission) (st : AppState) :
  invalidSubmission sub ->
  ~ invokesCallback sub /\
  submit sub st = st /\
  formAfter sub = formBefore sub.
Proof.
  destruct sub as [formData | now fs]; cbn [invalidSubmission].
  - intros Hbad.
    assert (Heff : ExamHallConfig.handleSubmit formData =
                   [ExamHallConfig.Toast "Invalid Configuration" true]).
    { unfold ExamHallConfig.handleSubmit.
      destruct Hbad as [Hn | [Hr | Hs]].
      - rewrite Hn. reflexivity.
      - apply Z.ltb_lt in Hr. rewrite Hr. now rewrite orb_true_r.
      - apply Z.ltb_lt in Hs. rewrite Hs. now rewrite orb_true_r. }
    unfold invokesCallback, submit, Index.submitHallForm. rewrite Heff.
    repeat split.
    intros (hallData & [Hin | []]). discriminate Hin.
  - intros Hbad.
    assert (Heff : StudentRegistration.handleSubmit now fs =
                   [StudentRegistration.Toast "Missing Information" true]).
    { unfold StudentRegistration.handleSubmit.
      destruct Hbad as [Hn | [He | [Hr | Hp]]].
      - rewrite Hn. reflexivity.
      - rewrite He. now rewrite orb_true_r.
      - rewrite Hr. now rewrite !orb_true_r.
      - rewrite Hp. cbn [StudentRegistration.falsy]. now rewrite !orb_true_r. }
    unfold invokesCallback, submit, formAfter, formBefore,
      Index.submitRegistrationForm, StudentRegistration.formAfterSubmit.
    rewrite Heff. repeat split.
    intros (s & [Hin | []]). discriminate Hin.
Qed.

Lemma invalid_submission_aborts_witness :
  (~ invokesCallback unnamedHall /\
   submit unnamedHall sampleSession = sampleSession /\
   formAfter unnamedHall = formBefore unnamedHall) /\
  (~ invokesCallback noPhoto /\
   submit noPhoto sampleSession = sampleSession /\
   formAfter noPhoto = formBefore noPhoto).
Proof.
  split.
  - apply (invalid_submission_aborts unnamedHall sampleSession).
    left. reflexivity.
  - apply (invalid_submission_aborts noPhoto sampleSession).
    right. right. right. reflexivity.
Defined.

(** C9. The object [exportSeatingData] serialises holds the current hall
    configuration, the whole student list, exactly the assignments whose
    student is not null (in list order), and the time stamp; the handler
    leaves the page state alone. *)
Theorem exportSeatingData_contents (now1 now2 : string) (st : AppState) :
  Index.exp_hallConfig (Index.content (Index.exportSeatingData now1 now2 st))
    = hallConfig st /\
  Index.exp_students (Index.content (Index.exportSeatingData now1 now2 st))
    = students st /\
  (forall a,
     In a (Index.assignments
             (Index.content (Index.exportSeatingData now1 now2 st))) <->
     In a (seatAssignments st) /\ student a <> None) /\
  Index.assignments (Index.content (Index.exportSeatingData now1 now2 st))
    = filter hasStudent (seatAssignments st) /\
  Index.generatedAt (Index.content (Index.exportSeatingData now1 now2 st))
    = now1 /\
  Index.handle Index.ExportSeating st = st.
Proof.
  cbn [Index.exportSeatingData Index.content Index.exp_hallConfig
       Index.exp_students Index.assignments Index.generatedAt Index.handle].
  split; [ reflexivity | split; [ reflexivity | split ] ].
  - intros a. rewrite filter_In, hasStudent_true. reflexivity.
  - repeat split.
Qed.

(** C10. In every state reachable through the handlers, every entry of
    the assignment list has a student: neither the bulk allocator nor the
    placement of a recognised student stores an entry whose student is
    null. *)
Theorem reachable_every_entry_has_student (st : AppState) :
  Index.reachable st ->
  (forall a, In a (seatAssignments st) -> student a <> None) /\
  (forall a,
     In a (seatAssignments (Index.generateAutomaticSeating st)) ->
     student a <> None) /\
  (forall s render a,
     In a (seatAssignments (Index.handleStudentRecognized s render st)) ->
     student a <> None).
Proof.
  intros Hreach. pose proof (reachable_allSeated st Hreach) as Hst.
  assert (Hall : forall st', allSeated st' ->
            forall a, In a (seatAssignments st') -> student a <> None).
  { intros st' Hs a Ha. apply hasStudent_true.
    unfold allSeated in Hs. rewrite Forall_forall in Hs. now apply Hs. }
  split; [ now apply Hall | split ].
  - apply Hall. now apply generateAutomaticSeating_allSeated.
  - intros s render. apply Hall. now apply handleStudentRecognized_allSeated.
Qed.

Lemma reachable_every_entry_has_student_witness :
  (forall a, In a (seatAssignments sampleSession) -> student a <> None) /\
  (forall a,
     In a (seatAssignments (Index.generateAutomaticSeating sampleSession)) ->
     student a <> None) /\
  (forall s render a,
     In a (seatAssignments (Index.handleStudentRecognized s render sampleSession)) ->
     student a <> None).
Proof.
  apply (reachable_every_entry_has_student sampleSession).
  eexists. session_of.
Defined.

(** * Further properties of the components *)

(** ** Products of numbers *)

(** Up to 2^53 in magnitude the product of two integers is exact. *)
Lemma jsMultiply_exact (a b : Z) :
  Z.abs (a * b) <= 2 ^ 53 -> jsMultiply a b = a * b.
Proof.
  unfold jsMultiply, roundToDouble. intros Hle. cbv zeta.
  destruct (Z.ltb_spec (Z.abs (a * b)) (2 ^ 53)) as [Hlt | Hge];
    [ reflexivity | ].
  assert (Hcases : a * b = 2 ^ 53 \/ a * b = - 2 ^ 53) by lia.
  destruct Hcases as [-> | ->]; reflexivity.
Qed.

(** Beyond, it is rounded: 94906267 * 94906267 = 9007199515875289 is
    stored as the even neighbour. *)
Example jsMultiply_rounds :
  jsMultiply 94906267 94906267 = 9007199515875288.
Proof. reflexivity. Qed.

(** ** The two forms *)

Lemma eqb_empty_false (v : string) : v <> "" -> String.eqb v "" = false.
Proof. intros Hv. now apply String.eqb_neq. Qed.

Lemma hall_handleSubmit_valid (formData : ExamHallConfig.FormData) :
  ExamHallConfig.name formData <> "" ->
  1 <= ExamHallConfig.rows formData ->
  1 <= ExamHallConfig.seatsPerRow formData ->
  ExamHallConfig.handleSubmit formData =
  [ExamHallConfig.OnHallConfigured
     (mkExamHallData (ExamHallConfig.name formData)
        (ExamHallConfig.rows formData) (ExamHallConfig.seatsPerRow formData)
        (jsMultiply (ExamHallConfig.rows formData)
           (ExamHallConfig.seatsPerRow formData)));
   ExamHallConfig.Toast "Hall Configured" false].
Proof.
  intros Hn Hr Hs. unfold ExamHallConfig.handleSubmit.
  rewrite (eqb_empty_false _ Hn).
  replace (ExamHallConfig.rows formData <? 1) with false
    by (symmetry; apply Z.ltb_ge; lia).
  replace (ExamHallConfig.seatsPerRow formData <? 1) with false
    by (symmetry; apply Z.ltb_ge; lia).
  reflexivity.
Qed.

Lemma hall_handleSubmit_invalid (formData : ExamHallConfig.FormData) :
  invalidSubmission (HallSubmission formData) ->
  ExamHallConfig.handleSubmit formData =
  [ExamHallConfig.Toast "Invalid Configuration" true].
Proof.
  cbn [invalidSubmission]. unfold ExamHallConfig.handleSubmit.
  intros [Hn | [Hr | Hs]].
  - rewrite Hn. reflexivity.
  - apply Z.ltb_lt in Hr. rewrite Hr. now rewrite orb_true_r.
  - apply Z.ltb_lt in Hs. rewrite Hs. now rewrite orb_true_r.
Qed.

(** X1. The hall form calls [onHallConfigured] exactly when the name is
    not empty and both numbers are at least 1. *)
Theorem hall_form_calls_back_iff_valid (formData : ExamHallConfig.FormData) :
  invokesCallback (HallSubmission formData) <->
  ExamHallConfig.name formData <> "" /\
  1 <= ExamHallConfig.rows formData /\
  1 <= ExamHallConfig.seatsPerRow formData.
Proof.
  cbn [invokesCallback]. split.
  - intros (hallData & Hin).
    destruct (string_dec (ExamHallConfig.name formData) "") as [Hn | Hn];
      [ | destruct (Z_lt_le_dec (ExamHallConfig.rows formData) 1) as [Hr | Hr];
          [ | destruct (Z_lt_le_dec (ExamHallConfig.seatsPerRow formData) 1)
                as [Hs | Hs]; [ | now repeat split ] ] ];
      exfalso;
      rewrite hall_handleSubmit_invalid in Hin by (cbn; tauto);
      destruct Hin as [Hin | []]; discriminate Hin.
  - intros (Hn & Hr & Hs). rewrite hall_handleSubmit_valid by assumption.
    eexists. left. reflexivity.
Qed.

(** X2. A valid hall form whose product [rows * seatsPerRow] is at most
    2^53 stores the configuration with that product as total, empties the
    assignment list and keeps the students. *)
Theorem hall_form_valid_submit (formData : ExamHallConfig.FormData)
    (st : AppState) :
  ExamHallConfig.name formData <> "" ->
  1 <= ExamHallConfig.rows formData ->
  1 <= ExamHallConfig.seatsPerRow formData ->
  ExamHallConfig.rows formData * ExamHallConfig.seatsPerRow formData <= 2 ^ 53 ->
  exists cfg,
    submit (HallSubmission formData) st = mkAppState (students st) (Some cfg) [] /\
    hallName cfg = ExamHallConfig.name formData /\
    rows cfg = ExamHallConfig.rows formData /\
    seatsPerRow cfg = ExamHallConfig.seatsPerRow formData /\
    totalSeats cfg =
      ExamHallConfig.rows formData * ExamHallConfig.seatsPerRow formData.
Proof.
  intros Hn Hr Hs Hbound. eexists. cbn [submit]. unfold Index.submitHallForm.
  rewrite hall_handleSubmit_valid by assumption. cbn.
  repeat split. apply jsMultiply_exact. nia.
Qed.

Lemma hall_form_valid_submit_witness :
  exists cfg,
    submit (HallSubmission mainHallForm) sampleSession =
      mkAppState (students sampleSession) (Some cfg) [] /\
    hallName cfg = "Main Hall" /\ rows cfg = 10 /\ seatsPerRow cfg = 8 /\
    totalSeats cfg = 10 * 8.
Proof.
  apply (hall_form_valid_submit mainHallForm sampleSession);
    [ discriminate | cbn; lia | cbn; lia | cbn; lia ].
Defined.

Lemma falsy_false (p : option string) :
  StudentRegistration.falsy p = false <-> exists v, p = Some v /\ v <> "".
Proof.
  destruct p as [v|]; cbn.
  - rewrite String.eqb_neq. split.
    + intros Hv. now exists v.
    + intros (w & [= <-] & Hw). exact Hw.
  - split; [ discriminate | intros (v & Hv & _); discriminate Hv ].
Qed.

Lemma registration_handleSubmit_cases (now : string)
    (fs : StudentRegistration.FormState) :
  let fd := StudentRegistration.formData fs in
  (StudentRegistration.name fd <> "" /\
   StudentRegistration.email fd <> "" /\
   StudentRegistration.rollNumber fd <> "" /\
   (exists v, StudentRegistration.photo fs = Some v /\ v <> "") /\
   StudentRegistration.handleSubmit now fs =
   [StudentRegistration.OnStudentAdded
      (mkStudent now (StudentRegistration.name fd)
         (StudentRegistration.email fd) (StudentRegistration.rollNumber fd)
         (StudentRegistration.photo fs));
    StudentRegistration.SetFormData (StudentRegistration.mkFormData "" "" "");
    StudentRegistration.SetPhoto None;
    StudentRegistration.Toast "Student Registered" false]) \/
  (~ (StudentRegistration.name fd <> "" /\
      StudentRegistration.email fd <> "" /\
      StudentRegistration.rollNumber fd <> "" /\
      exists v, StudentRegistration.photo fs = Some v /\ v <> "") /\
   StudentRegistration.handleSubmit now fs =
   [StudentRegistration.Toast "Missing Information" true]).
Proof.
  cbv zeta. unfold StudentRegistration.handleSubmit.
  destruct (String.eqb_spec
              (StudentRegistration.name (StudentRegistration.formData fs)) "")
    as [Hn | Hn]; [ right; split; [ tauto | reflexivity ] | ].
  destruct (String.eqb_spec
              (StudentRegistration.email (StudentRegistration.formData fs)) "")
    as [He | He]; [ right; split; [ tauto | reflexivity ] | ].
  destruct (String.eqb_spec
              (StudentRegistration.rollNumber (StudentRegistration.formData fs)) "")
    as [Hr | Hr]; [ right; split; [ tauto | reflexivity ] | ].
  destruct (StudentRegistration.falsy (StudentRegistration.photo fs)) eqn:Hp.
  - right. split; [ | reflexivity ].
    intros (_ & _ & _ & Hv). apply falsy_false in Hv. congruence.
  - left. apply falsy_false in Hp. now repeat split.
Qed.

(** X3. The registration form calls [onStudentAdded] exactly when name,
    email and roll number are not empty and a non-empty photo is set. *)
Theorem registration_form_calls_back_iff_complete (now : string)
    (fs : StudentRegistration.FormState) :
  invokesCallback (RegistrationSubmission now fs) <->
  StudentRegistration.name (StudentRegistration.formData fs) <> "" /\
  StudentRegistration.email (StudentRegistration.formData fs) <> "" /\
  StudentRegistration.rollNumber (StudentRegistration.formData fs) <> "" /\
  exists v, StudentRegistration.photo fs = Some v /\ v <> "".
Proof.
  cbn [invokesCallback].
  destruct (registration_handleSubmit_cases now fs)
    as [(Hn & He & Hr & Hp & Heff) | (Hbad & Heff)]; rewrite Heff.
  - split; [ now intros _ | ]. intros _. eexists. left. reflexivity.
  - split; [ | intros Hok; contradiction ].
    intros (s & [Hin | []]). discriminate Hin.
Qed.

(** X4. A complete registration form appends one student, built from the
    form's fields with the time stamp as id, at the end of the student
    list; the hall and the assignments stay as they are, and the form is
    cleared. *)
Theorem registration_form_complete_submit (now : string)
    (fs : StudentRegistration.FormState) (st : AppState) :
  StudentRegistration.name (StudentRegistration.formData fs) <> "" ->
  StudentRegistration.email (StudentRegistration.formData fs) <> "" ->
  StudentRegistration.rollNumber (StudentRegistration.formData fs) <> "" ->
  (exists v, StudentRegistration.photo fs = Some v /\ v <> "") ->
  exists s,
    submit (RegistrationSubmission now fs) st =
      mkAppState (students st ++ [s]) (hallConfig st) (seatAssignments st) /\
    s = mkStudent now
          (StudentRegistration.name (StudentRegistration.formData fs))
          (StudentRegistration.email (StudentRegistration.formData fs))
          (StudentRegistration.rollNumber (StudentRegistration.formData fs))
          (StudentRegistration.photo fs) /\
    completeStudent s /\
    StudentRegistration.formAfterSubmit now fs =
      StudentRegistration.mkFormState
        (StudentRegistration.mkFormData "" "" "") None.
Proof.
  intros Hn He Hr Hp.
  destruct (registration_handleSubmit_cases now fs)
    as [(_ & _ & _ & _ & Heff) | (Hbad & _)]; [ | exfalso; apply Hbad; tauto ].
  eexists. cbn [submit].
  unfold Index.submitRegistrationForm, StudentRegistration.formAfterSubmit.
  rewrite Heff. cbn.
  split; [ reflexivity | split; [ reflexivity | split; [ | reflexivity ] ] ].
  unfold completeStudent. cbn. tauto.
Qed.

Lemma registration_form_complete_submit_witness :
  exists s,
    submit (RegistrationSubmission "1700000000000" completeForm) threeInFour =
      mkAppState (students threeInFour ++ [s]) (hallConfig threeInFour)
        (seatAssignments threeInFour) /\
    s = mkStudent "1700000000000" "A" "a@exam.test" "R-1" (Some "data:a") /\
    completeStudent s /\
    StudentRegistration.formAfterSubmit "1700000000000" completeForm =
      StudentRegistration.mkFormState
        (StudentRegistration.mkFormData "" "" "") None.
Proof.
  apply (registration_form_complete_submit "1700000000000" completeForm
           threeInFour);
    [ discriminate | discriminate | discriminate | ].
  exists "data:a". split; [ reflexivity | discriminate ].
Defined.

(** ** States reachable through the user interface *)

Lemma submit_cases (sub : Submission) (st : AppState) :
  submit sub st = st \/
  (exists cfg, validHall cfg /\
     submit sub st = Index.handle (Index.HallConfigured cfg) st) \/
  (exists s, completeStudent s /\
     submit sub st = Index.handle (Index.StudentAdded s) st).
Proof.
  destruct sub as [formData | now fs].
  - destruct (string_dec (ExamHallConfig.name formData) "") as [Hn | Hn];
      [ | destruct (Z_lt_le_dec (ExamHallConfig.rows formData) 1) as [Hr | Hr];
          [ | destruct (Z_lt_le_dec (ExamHallConfig.seatsPerRow formData) 1)
                as [Hs | Hs] ] ].
    4: { right. left. eexists. cbn [submit]. unfold Index.submitHallForm.
         rewrite hall_handleSubmit_valid by assumption.
         split; [ | reflexivity ]. now repeat split. }
    all: left; cbn [submit]; unfold Index.submitHallForm;
      rewrite hall_handleSubmit_invalid by (cbn; tauto); reflexivity.
  - destruct (registration_handleSubmit_cases now fs)
      as [(Hn & He & Hr & Hp & Heff) | (_ & Heff)].
    + right. right. eexists. cbn [submit].
      unfold Index.submitRegistrationForm. rewrite Heff.
      split; [ | reflexivity ]. unfold completeStudent. cbn. tauto.
    + left. cbn [submit]. unfold Index.submitRegistrationForm.
      rewrite Heff. reflexivity.
Qed.

Lemma clickGenerateSeating_cases (st : AppState) :
  (clickGenerateSeating st = st /\
   (hallConfig st = None \/ students st = [])) \/
  (clickGenerateSeating st = Index.generateAutomaticSeating st /\
   hallConfig st <> None /\ students st <> []).
Proof.
  unfold clickGenerateSeating, Dashboard.handleGenerateSeating.
  destruct (hallConfig st) as [cfg|]; [ | left; split; [ reflexivity | now left ] ].
  destruct (students st) as [|s l]; cbn.
  - left. split; [ reflexivity | now right ].
  - right. repeat split; discriminate.
Qed.

Lemma uiHandle_cases (e : UiEvent) (st : AppState) :
  uiHandle e st = st \/
  (exists cfg, validHall cfg /\
     uiHandle e st = Index.handle (Index.HallConfigured cfg) st) \/
  (exists s, completeStudent s /\
     uiHandle e st = Index.handle (Index.StudentAdded s) st) \/
  (exists s render, e = Recognized s render /\
     uiHandle e st = Index.handle (Index.StudentRecognized s render) st) \/
  uiHandle e st = Index.handle Index.GenerateSeating st.
Proof.
  destruct e as [sub | s render | | ]; cbn [uiHandle].
  - destruct (submit_cases sub st) as [H | [H | H]]; tauto.
  - right. right. right. left. now exists s, render.
  - destruct (clickGenerateSeating_cases st) as [[H _] | [H _]]; tauto.
  - now left.
Qed.

(** Every session of the user interface is a session of the handlers. *)
Lemma uiHistory_session (states : list AppState) :
  uiHistory states -> Index.session states.
Proof.
  induction 1 as [|e st past Hui IH Hcaptured]; [ constructor | ].
  destruct (uiHandle_cases e st)
    as [H | [(cfg & _ & H) | [(s & _ & H) | [(s & render & He & H) | H]]]];
    rewrite H.
  - change st with (Index.handle Index.ExportSeating st) at 1.
    now constructor.
  - now constructor.
  - now constructor.
  - constructor; [ exact IH | ]. subst e. exact (proj1 Hcaptured).
  - now constructor.
Qed.

Lemma uiReachable_reachable (st : AppState) :
  uiReachable st -> Index.reachable st.
Proof. intros [past Hui]. exists past. now apply uiHistory_session. Qed.

Lemma generateAutomaticSeating_keeps (st : AppState) :
  students (Index.generateAutomaticSeating st) = students st /\
  hallConfig (Index.generateAutomaticSeating st) = hallConfig st.
Proof.
  unfold Index.generateAutomaticSeating.
  destruct (hallConfig st) eqn:Hcfg; cbn; now rewrite ?Hcfg.
Qed.

(** A recognition changes the assignment list only. *)
Lemma handleStudentRecognized_keeps (s : Student) (render latest : AppState) :
  students (Index.handleStudentRecognized s render latest) = students latest /\
  hallConfig (Index.handleStudentRecognized s render latest) = hallConfig latest.
Proof.
  unfold Index.handleStudentRecognized.
  destruct (hallConfig render); [ | now split ].
  destruct (Index.findNextAvailableSeat render); now split.
Qed.

Lemma uiHandle_validated (e : UiEvent) (st : AppState) :
  validated st -> validated (uiHandle e st).
Proof.
  intros [IHs IHc]. unfold validated.
  destruct (uiHandle_cases e st)
    as [H | [(cfg & Hv & H) | [(s & Hs & H) | [(s & render & _ & H) | H]]]];
    rewrite H; cbn [Index.handle].
  - now split.
  - split; [ exact IHs | ]. cbn. intros cfg' [= <-]. exact Hv.
  - split; [ | exact IHc ]. cbn. apply Forall_app. split; [ exact IHs | ].
    constructor; [ exact Hs | constructor ].
  - destruct (handleStudentRecognized_keeps s render st) as [-> ->]. now split.
  - destruct (generateAutomaticSeating_keeps st) as [-> ->]. now split.
Qed.

Lemma uiReachable_inv (st : AppState) : uiReachable st -> validated st.
Proof.
  intros [past Hui]. remember (st :: past) as states eqn:Hstates.
  revert st past Hstates.
  induction Hui as [|e st' past' Hui IH Hcaptured]; intros st past [= <- _].
  - split; [ constructor | discriminate ].
  - apply uiHandle_validated. now apply (IH st' past').
Qed.

(** X5. In every state reached through the user interface, stale
    recognitions included, each student of the list has a name, an email,
    a roll number and a photo, none of them empty, and a stored hall
    configuration has a name, at least one row and one seat per row, and
    [totalSeats = rows * seatsPerRow] whenever that product is at most
    2^53. *)
Theorem uiReachable_validated (st : AppState) :
  uiReachable st ->
  Forall completeStudent (students st) /\
  forall cfg,
    hallConfig st = Some cfg ->
    hallName cfg <> "" /\ 1 <= rows cfg /\ 1 <= seatsPerRow cfg /\
    (rows cfg * seatsPerRow cfg <= 2 ^ 53 ->
     totalSeats cfg = rows cfg * seatsPerRow cfg).
Proof.
  intros Hui. destruct (uiReachable_inv st Hui) as [Hs Hc].
  split; [ exact Hs | ]. intros cfg Hcfg.
  destruct (Hc cfg Hcfg) as (Hn & Hr & Hse & Htot).
  repeat split; try assumption.
  intros Hbound. rewrite Htot. apply jsMultiply_exact. nia.
Qed.

Lemma uiSession_reachable : uiReachable uiSession.
Proof. eexists. ui_session_of. Qed.

Lemma uiReachable_validated_witness :
  Forall completeStudent (students uiSession) /\
  forall cfg,
    hallConfig uiSession = Some cfg ->
    hallName cfg <> "" /\ 1 <= rows cfg /\ 1 <= seatsPerRow cfg /\
    (rows cfg * seatsPerRow cfg <= 2 ^ 53 ->
     totalSeats cfg = rows cfg * seatsPerRow cfg).
Proof.
  apply (uiReachable_validated uiSession). exact uiSession_reachable.
Defined.

(** ** Seats and their row-major numbers *)

(** The entry of index [i < capacity] lies in the hall. *)
Lemma rowMajorEntry_inHall (studs : list Student) (cfg : ExamHallData)
    (i : nat) :
  (i < capacity cfg)%nat ->
  inHall cfg (coord (rowMajorEntry studs (seatsPerRow cfg) i)).
Proof.
  unfold capacity, inHall, coord, rowMajorEntry. cbn [row seat fst snd].
  intros Hi.
  assert (Hs : 1 <= seatsPerRow cfg) by nia.
  assert (Hr : 1 <= rows cfg) by nia.
  assert (Hlt : Z.of_nat i < seatsPerRow cfg * rows cfg) by nia.
  pose proof (Z.div_pos (Z.of_nat i) (seatsPerRow cfg) ltac:(lia) ltac:(lia)).
  pose proof (Z.div_lt_upper_bound (Z.of_nat i) (seatsPerRow cfg) (rows cfg)
                ltac:(lia) Hlt).
  pose proof (Z.mod_pos_bound (Z.of_nat i) (seatsPerRow cfg) ltac:(lia)).
  lia.
Qed.

(** A seat of the hall is the seat of its row-major number. *)
Lemma seatIndex_inHall (cfg : ExamHallData) (p : Z * Z) :
  inHall cfg p ->
  0 <= seatIndex (seatsPerRow cfg) p /\
  (Z.to_nat (seatIndex (seatsPerRow cfg) p) < capacity cfg)%nat /\
  forall studs,
    coord (rowMajorEntry studs (seatsPerRow cfg)
             (Z.to_nat (seatIndex (seatsPerRow cfg) p))) = p.
Proof.
  destruct p as [r s]. unfold inHall, seatIndex, capacity, coord, rowMajorEntry.
  cbn [fst snd row seat]. intros [Hr Hs].
  assert (H0 : 0 <= (r - 1) * seatsPerRow cfg + (s - 1)) by nia.
  split; [ exact H0 | split ].
  - rewrite <- Z2Nat.inj_mul by lia. apply Z2Nat.inj_lt; nia.
  - intros _. rewrite Z2Nat.id by exact H0.
    assert (Hq : ((r - 1) * seatsPerRow cfg + (s - 1)) / seatsPerRow cfg = r - 1).
    { symmetry. apply Z.div_unique with (r := s - 1); lia. }
    assert (Hm : ((r - 1) * seatsPerRow cfg + (s - 1)) mod seatsPerRow cfg = s - 1).
    { symmetry. apply Z.mod_unique with (q := r - 1); lia. }
    rewrite Hq, Hm. f_equal; lia.
Qed.

(** The scan order is the order of the row-major numbers. *)
Lemma scannedBefore_seatIndex (cfg : ExamHallData) (p q : Z * Z) :
  inHall cfg p -> inHall cfg q ->
  (scannedBefore p q <->
   seatIndex (seatsPerRow cfg) p < seatIndex (seatsPerRow cfg) q).
Proof.
  destruct p as [r s], q as [r' s']. unfold inHall, scannedBefore, seatIndex.
  cbn [fst snd]. intros [Hr Hs] [Hr' Hs']. split.
  - intros [Hlt | [-> Hlt]]; nia.
  - intros Hlt. destruct (Z.lt_total r r') as [H | [H | H]];
      [ now left | right; split; [ assumption | subst; nia ] | exfalso; nia ].
Qed.

(** ** Every entry is a seat of the hall *)

Lemma findNextAvailableSeat_inHall (st : AppState) (cfg : ExamHallData)
    (p : Z * Z) :
  hallConfig st = Some cfg ->
  Index.findNextAvailableSeat st = Some p ->
  inHall cfg p.
Proof.
  intros Hcfg. unfold Index.findNextAvailableSeat. rewrite Hcfg. intros Hfind.
  pose proof (findRowLoop_spec (seatAssignments st) (rows cfg) (seatsPerRow cfg) 1)
    as Hspec.
  rewrite Hfind in Hspec. unfold inHall. tauto.
Qed.

Lemma handle_seatedInHall (e : Index.Event) (st : AppState) :
  Index.prompt e st -> seatedInHall st -> seatedInHall (Index.handle e st).
Proof.
  unfold seatedInHall.
  destruct e as [s | config | s render | | ]; cbn [Index.handle Index.prompt];
    intros Hprompt.
  - intros Hst. exact Hst.
  - intros _. cbn. constructor.
  - subst render. unfold Index.handleStudentRecognized.
    destruct (hallConfig st) as [cfg|] eqn:Hcfg;
      [ | rewrite ?Hcfg; intros Hst; exact Hst ].
    destruct (Index.findNextAvailableSeat st) as [p|] eqn:Hfind;
      [ | rewrite ?Hcfg; intros Hst; exact Hst ].
    cbn. rewrite ?Hcfg. intros Hst. apply Forall_app. split; [ exact Hst | ].
    constructor; [ | constructor ].
    unfold coord. cbn [row seat]. rewrite <- surjective_pairing.
    now apply findNextAvailableSeat_inHall with st.
  - destruct (generateAutomaticSeating_keeps st) as [_ ->].
    destruct (hallConfig st) as [cfg|] eqn:Hcfg.
    + intros _. rewrite (generateAutomaticSeating_closed st cfg Hcfg).
      apply Forall_forall. intros a Ha.
      apply in_map_iff in Ha as (i & <- & Hi). apply in_seq in Hi.
      apply rowMajorEntry_inHall. lia.
    + unfold Index.generateAutomaticSeating. rewrite ?Hcfg.
      intros Hst. exact Hst.
  - intros Hst. exact Hst.
Qed.

Lemma promptReachable_seatedInHall (st : AppState) :
  Index.promptReachable st -> seatedInHall st.
Proof.
  induction 1 as [|e st Hreach IH Hprompt]; [ reflexivity | ].
  now apply handle_seatedInHall.
Qed.

(** X6. In a session in which every recognition handler runs in the
    current render (no state change while a scan is pending), each entry
    of the assignment list is at a seat of the configured hall (rows
    1..R, seats 1..C), no two entries share a seat, and while no hall is
    configured the list is empty. *)
Theorem prompt_entries_in_hall_distinct (st : AppState) :
  Index.promptReachable st ->
  (forall cfg a,
     hallConfig st = Some cfg -> In a (seatAssignments st) ->
     1 <= row a <= rows cfg /\ 1 <= seat a <= seatsPerRow cfg) /\
  NoDup (map coord (seatAssignments st)) /\
  (hallConfig st = None -> seatAssignments st = []).
Proof.
  intros Hreach. pose proof (promptReachable_seatedInHall st Hreach) as Hst.
  unfold seatedInHall in Hst. split; [ | split ].
  - intros cfg a Hcfg Ha. rewrite Hcfg in Hst.
    rewrite Forall_forall in Hst. exact (Hst a Ha).
  - exact (proj1 (promptReachable_wellSeated st Hreach)).
  - intros Hcfg. now rewrite Hcfg in Hst.
Qed.

Lemma sampleSession_prompt : Index.promptReachable sampleSession.
Proof. prompt_session_of. Qed.

Lemma prompt_entries_in_hall_distinct_witness :
  (forall cfg a,
     hallConfig sampleSession = Some cfg -> In a (seatAssignments sampleSession) ->
     1 <= row a <= rows cfg /\ 1 <= seat a <= seatsPerRow cfg) /\
  NoDup (map coord (seatAssignments sampleSession)) /\
  (hallConfig sampleSession = None -> seatAssignments sampleSession = []).
Proof.
  apply (prompt_entries_in_hall_distinct sampleSession).
  exact sampleSession_prompt.
Defined.

(** A list of distinct seats of the hall is no longer than the hall has
    seats. *)
Lemma distinct_seats_bounded (cfg : ExamHallData) (l : list (Z * Z)) :
  NoDup l -> Forall (inHall cfg) l -> (List.length l <= capacity cfg)%nat.
Proof.
  intros Hnd Hin.
  set (hallSeats := map (fun i => coord (rowMajorEntry [] (seatsPerRow cfg) i))
                      (seq 0 (capacity cfg))).
  replace (capacity cfg) with (List.length hallSeats)
    by (unfold hallSeats; now rewrite length_map, length_seq).
  apply NoDup_incl_length; [ exact Hnd | ].
  intros p Hp. rewrite Forall_forall in Hin. specialize (Hin p Hp).
  destruct (seatIndex_inHall cfg p Hin) as (_ & Hlt & Hback).
  unfold hallSeats. apply in_map_iff.
  exists (Z.to_nat (seatIndex (seatsPerRow cfg) p)).
  split; [ apply Hback | apply in_seq; lia ].
Qed.

Lemma promptReachable_count_bounded (st : AppState) (cfg : ExamHallData) :
  Index.promptReachable st -> hallConfig st = Some cfg ->
  (List.length (seatAssignments st) <= capacity cfg)%nat.
Proof.
  intros Hreach Hcfg.
  destruct (promptReachable_wellSeated st Hreach) as [Hnd _].
  pose proof (promptReachable_seatedInHall st Hreach) as Hin.
  unfold seatedInHall in Hin. rewrite Hcfg in Hin.
  rewrite <- (length_map coord). apply distinct_seats_bounded; [ exact Hnd | ].
  now apply Forall_map.
Qed.

(** X7. In a session in which every recognition handler runs in the
    current render, with a hall as the form stores it and of at most 2^53
    seats, the number of assigned seats shown by the seating chart and by
    the dashboard is the length of the assignment list and is at most the
    total number of seats they show. *)
Theorem prompt_assigned_at_most_total (st : AppState) (cfg : ExamHallData) :
  Index.promptReachable st ->
  hallConfig st = Some cfg ->
  validHall cfg ->
  rows cfg * seatsPerRow cfg <= 2 ^ 53 ->
  SeatingChart.assignedSeats (seatAssignments st) =
    List.length (seatAssignments st) /\
  Dashboard.assignedSeats st = List.length (seatAssignments st) /\
  Z.of_nat (SeatingChart.assignedSeats (seatAssignments st)) <=
    SeatingChart.totalSeats (rows cfg) (seatsPerRow cfg) /\
  Z.of_nat (Dashboard.assignedSeats st) <= Dashboard.totalSeats st.
Proof.
  intros Hreach Hcfg (_ & Hr & Hs & Htot) Hbound.
  pose proof (promptReachable_count_bounded st cfg Hreach Hcfg) as Hlen.
  pose proof (jsMultiply_exact (rows cfg) (seatsPerRow cfg) ltac:(nia)) as Hexact.
  unfold SeatingChart.assignedSeats, Dashboard.assignedSeats,
    SeatingChart.totalSeats, Dashboard.totalSeats.
  rewrite (allSeated_filter st (proj2 (promptReachable_wellSeated st Hreach))).
  rewrite Hcfg, Hexact. unfold capacity in Hlen.
  destruct cfg as [n r c t]. cbn in *. subst t. rewrite Hexact.
  repeat split; nia.
Qed.

Lemma prompt_assigned_at_most_total_witness :
  SeatingChart.assignedSeats (seatAssignments sampleSession) =
    List.length (seatAssignments sampleSession) /\
  Dashboard.assignedSeats sampleSession =
    List.length (seatAssignments sampleSession) /\
  Z.of_nat (SeatingChart.assignedSeats (seatAssignments sampleSession)) <=
    SeatingChart.totalSeats 2 2 /\
  Z.of_nat (Dashboard.assignedSeats sampleSession) <=
    Dashboard.totalSeats sampleSession.
Proof.
  apply (prompt_assigned_at_most_total sampleSession hall2x2);
    [ exact sampleSession_prompt | reflexivity | | cbn; lia ].
  repeat split; [ discriminate | cbn; lia | cbn; lia ].
Defined.

(** ** The seating chart *)

(** With one entry per seat at most, [find] returns the entry of the
    seat. *)
Lemma find_seat_entry (assignments : list SeatAssignment) (a : SeatAssignment) :
  NoDup (map coord assignments) ->
  In a assignments ->
  find (fun b => (row b =? row a) && (seat b =? seat a)) assignments = Some a.
Proof.
  induction assignments as [|b l IH]; intros Hnd Hin; [ destruct Hin | ].
  cbn [map] in Hnd. apply NoDup_cons_iff in Hnd as [Hb Hnd]. cbn [find].
  destruct Hin as [-> | Hin].
  - now rewrite !Z.eqb_refl.
  - destruct ((row b =? row a) && (seat b =? seat a)) eqn:Heq.
    + exfalso. apply Hb. apply andb_prop in Heq as [Hr Hs].
      apply Z.eqb_eq in Hr, Hs. apply in_map_iff. exists a.
      split; [ unfold coord; congruence | assumption ].
    + now apply IH.
Qed.

Lemma getSeatAssignment_Some (assignments : list SeatAssignment) (r s : Z)
    (stu : Student) :
  SeatingChart.getSeatAssignment assignments r s = Some stu ->
  In (mkSeatAssignment r s (Some stu)) assignments.
Proof.
  unfold SeatingChart.getSeatAssignment.
  destruct (find _ assignments) as [a|] eqn:Hfind; [ | discriminate ].
  apply find_some in Hfind as [Hin Heq]. intros Hst.
  apply andb_prop in Heq as [Hr Hs]. apply Z.eqb_eq in Hr, Hs.
  destruct a as [r' s' st']. cbn in *. now subst.
Qed.

Lemma getSeatAssignment_entry (assignments : list SeatAssignment)
    (a : SeatAssignment) :
  NoDup (map coord assignments) ->
  In a assignments ->
  SeatingChart.getSeatAssignment assignments (row a) (seat a) = student a.
Proof.
  intros Hnd Hin. unfold SeatingChart.getSeatAssignment.
  now rewrite (find_seat_entry assignments a Hnd Hin).
Qed.

(** X8. In every reachable state, stale recognitions included, the
    seating chart shows a student at a seat only if the list has the entry
    (row, seat, student), and it shows some student at a seat exactly
    when the next-free-seat finder counts the seat as occupied; when no
    two entries share a seat, it shows the student of every entry. *)
Theorem reachable_chart_agrees (st : AppState) (r s : Z) :
  Index.reachable st ->
  (forall stu,
     SeatingChart.getSeatAssignment (seatAssignments st) r s = Some stu ->
     In (mkSeatAssignment r s (Some stu)) (seatAssignments st)) /\
  (SeatingChart.getSeatAssignment (seatAssignments st) r s <> None <->
   Index.isOccupied (seatAssignments st) r s = true) /\
  (NoDup (map coord (seatAssignments st)) ->
   forall stu,
     In (mkSeatAssignment r s (Some stu)) (seatAssignments st) ->
     SeatingChart.getSeatAssignment (seatAssignments st) r s = Some stu).
Proof.
  intros Hreach. pose proof (reachable_allSeated st Hreach) as Hall.
  unfold allSeated in Hall. rewrite Forall_forall in Hall.
  split; [ | split ].
  - intros stu. apply getSeatAssignment_Some.
  - rewrite isOccupied_seatTaken. split.
    + destruct (SeatingChart.getSeatAssignment (seatAssignments st) r s)
        as [stu|] eqn:Hget; [ intros _ | congruence ].
      apply getSeatAssignment_Some in Hget.
      eexists. split; [ exact Hget | ]. split; [ reflexivity | discriminate ].
    + intros (a & Hin & Hc & _). injection Hc as Hr Hs.
      unfold SeatingChart.getSeatAssignment.
      destruct (find (fun b => (row b =? r) && (seat b =? s)) (seatAssignments st))
        as [b|] eqn:Hfind.
      * apply find_some in Hfind as [Hb _].
        apply hasStudent_true. now apply Hall.
      * exfalso. apply (find_none _ _ Hfind) in Hin.
        now rewrite Hr, Hs, !Z.eqb_refl in Hin.
  - intros Hnd stu Hin. exact (getSeatAssignment_entry _ _ Hnd Hin).
Qed.

Lemma reachable_chart_agrees_witness :
  (forall stu,
     SeatingChart.getSeatAssignment (seatAssignments secondScanDone) 1 1
       = Some stu ->
     In (mkSeatAssignment 1 1 (Some stu)) (seatAssignments secondScanDone)) /\
  (SeatingChart.getSeatAssignment (seatAssignments secondScanDone) 1 1 <> None <->
   Index.isOccupied (seatAssignments secondScanDone) 1 1 = true) /\
  (NoDup (map coord (seatAssignments secondScanDone)) ->
   forall stu,
     In (mkSeatAssignment 1 1 (Some stu)) (seatAssignments secondScanDone) ->
     SeatingChart.getSeatAssignment (seatAssignments secondScanDone) 1 1
       = Some stu).
Proof.
  apply (reachable_chart_agrees secondScanDone 1 1).
  eexists. session_of.
Defined.

(** ** The finder on a hall filled in row-major order *)

(** The first free seat of the scan is what the finder returns. *)
Lemma findNextAvailableSeat_is (st : AppState) (cfg : ExamHallData) (p : Z * Z) :
  hallConfig st = Some cfg ->
  inHall cfg p ->
  ~ seatTaken (seatAssignments st) p ->
  (forall q, inHall cfg q -> scannedBefore q p ->
             seatTaken (seatAssignments st) q) ->
  Index.findNextAvailableSeat st = Some p.
Proof.
  intros Hcfg Hin Hfree Hbefore.
  unfold Index.findNextAvailableSeat. rewrite Hcfg.
  pose proof (findRowLoop_spec (seatAssignments st) (rows cfg) (seatsPerRow cfg) 1)
    as Hspec.
  destruct (Index.findRowLoop _ _ _ _) as [[r s]|].
  - cbn [fst snd] in Hspec. destruct Hspec as (Hr & Hs & Hfree' & Hbefore').
    destruct p as [r0 s0]. destruct Hin as [Hr0 Hs0]. cbn [fst snd] in *.
    destruct (scan_order_total (r0, s0) (r, s)) as [Hlt | [Heq | Hlt]].
    + exfalso. apply Hfree. apply isOccupied_seatTaken.
      apply Hbefore'; [ lia | lia | exact Hlt ].
    + now rewrite Heq.
    + exfalso. apply isOccupied_free in Hfree'. apply Hfree'.
      apply Hbefore; [ split; cbn [fst snd]; lia | exact Hlt ].
  - exfalso. apply Hfree. destruct p as [r0 s0]. destruct Hin as [Hr0 Hs0].
    cbn [fst snd] in *. apply isOccupied_seatTaken. apply Hspec; assumption.
Qed.

Lemma findNextAvailableSeat_none (st : AppState) (cfg : ExamHallData) :
  hallConfig st = Some cfg ->
  (forall q, inHall cfg q -> seatTaken (seatAssignments st) q) ->
  Index.findNextAvailableSeat st = None.
Proof.
  intros Hcfg Hall.
  destruct (Index.findNextAvailableSeat st) as [p|] eqn:Hfind; [ | reflexivity ].
  exfalso. apply (findNextAvailableSeat_free st p Hfind).
  apply Hall. now apply findNextAvailableSeat_inHall with st.
Qed.

Lemma seatIndex_rowMajorEntry (studs : list Student) (nSeats : Z) (i : nat) :
  1 <= nSeats ->
  seatIndex nSeats (coord (rowMajorEntry studs nSeats i)) = Z.of_nat i.
Proof.
  intros Hs. unfold seatIndex, coord, rowMajorEntry. cbn [row seat fst snd].
  pose proof (Z.div_mod (Z.of_nat i) nSeats ltac:(lia)). lia.
Qed.

(** With the first [k] students seated in row-major order, the taken
    seats of the hall are those numbered below [k]. *)
Lemma seatTaken_rowMajor (studs : list Student) (cfg : ExamHallData) (k : nat)
    (p : Z * Z) :
  (k <= List.length studs)%nat ->
  inHall cfg p ->
  seatTaken (map (rowMajorEntry studs (seatsPerRow cfg)) (seq 0 k)) p <->
  seatIndex (seatsPerRow cfg) p < Z.of_nat k.
Proof.
  intros Hk Hin.
  assert (Hs : 1 <= seatsPerRow cfg) by (destruct Hin; lia).
  destruct (seatIndex_inHall cfg p Hin) as (H0 & _ & Hback). split.
  - intros (a & Ha & Hc & _). apply in_map_iff in Ha as (i & <- & Hi).
    apply in_seq in Hi. rewrite <- Hc, seatIndex_rowMajorEntry by exact Hs. lia.
  - intros Hlt.
    exists (rowMajorEntry studs (seatsPerRow cfg)
              (Z.to_nat (seatIndex (seatsPerRow cfg) p))).
    split; [ | split; [ apply Hback | ] ].
    + apply in_map. apply in_seq. lia.
    + unfold rowMajorEntry. cbn [student]. apply nth_error_Some. lia.
Qed.

(** After the first [k] students are seated in row-major order the finder
    returns seat number [k], or nothing when the hall is full. *)
Lemma findNextAvailableSeat_after_prefix (st : AppState) (cfg : ExamHallData)
    (studs : list Student) (k : nat) :
  hallConfig st = Some cfg ->
  seatAssignments st = map (rowMajorEntry studs (seatsPerRow cfg)) (seq 0 k) ->
  (k <= List.length studs)%nat ->
  (k <= capacity cfg)%nat ->
  Index.findNextAvailableSeat st =
  if (k <? capacity cfg)%nat
  then Some (coord (rowMajorEntry studs (seatsPerRow cfg) k))
  else None.
Proof.
  intros Hcfg Hasg Hk Hcap.
  destruct (Nat.ltb_spec k (capacity cfg)) as [Hlt | Hge].
  - pose proof (rowMajorEntry_inHall studs cfg k Hlt) as Hin.
    assert (Hs : 1 <= seatsPerRow cfg) by (destruct Hin; cbn in *; lia).
    apply findNextAvailableSeat_is with cfg; try assumption; rewrite Hasg.
    + rewrite seatTaken_rowMajor by assumption.
      rewrite seatIndex_rowMajorEntry by exact Hs. lia.
    + intros q Hq Hbefore. apply seatTaken_rowMajor; try assumption.
      apply (scannedBefore_seatIndex cfg) in Hbefore; try assumption.
      now rewrite seatIndex_rowMajorEntry in Hbefore by exact Hs.
  - apply findNextAvailableSeat_none with cfg; [ assumption | ].
    intros q Hq. rewrite Hasg. apply seatTaken_rowMajor; try assumption.
    destruct (seatIndex_inHall cfg q Hq) as (H0 & Hq' & _). lia.
Qed.

(** X9. After bulk allocation the finder returns the seat that follows
    the last student in row-major order when the students are fewer than
    the seats, and nothing otherwise. *)
Theorem findNextAvailableSeat_after_bulk (st : AppState) (cfg : ExamHallData) :
  hallConfig st = Some cfg ->
  Index.findNextAvailableSeat (Index.generateAutomaticSeating st) =
  if (List.length (students st) <? capacity cfg)%nat
  then Some (Z.of_nat (List.length (students st)) / seatsPerRow cfg + 1,
             Z.of_nat (List.length (students st)) mod seatsPerRow cfg + 1)
  else None.
Proof.
  intros Hcfg.
  destruct (generateAutomaticSeating_keeps st) as [_ Hkeep].
  rewrite Hcfg in Hkeep.
  rewrite (findNextAvailableSeat_after_prefix _ cfg (students st)
             (Nat.min (List.length (students st)) (capacity cfg)) Hkeep
             (generateAutomaticSeating_closed st cfg Hcfg))
    by lia.
  destruct (Nat.ltb_spec (List.length (students st)) (capacity cfg)) as [Hlt | Hge].
  - rewrite Nat.min_l by lia.
    destruct (Nat.ltb_spec (List.length (students st)) (capacity cfg));
      [ reflexivity | lia ].
  - rewrite Nat.min_r by lia. now rewrite Nat.ltb_irrefl.
Qed.

Lemma findNextAvailableSeat_after_bulk_witness :
  Index.findNextAvailableSeat (Index.generateAutomaticSeating threeInFour) =
  Some (2, 2).
Proof.
  exact (findNextAvailableSeat_after_bulk threeInFour hall2x2 eq_refl).
Defined.

(** X10. After bulk allocation the seating chart shows, at the seat
    numbered [i] in row-major order, the student at index [i] of the
    student list, and nobody at the seats numbered from the number of
    students on. *)
Theorem chart_after_bulk (st : AppState) (cfg : ExamHallData) (i : nat) :
  hallConfig st = Some cfg ->
  (i < capacity cfg)%nat ->
  SeatingChart.getSeatAssignment
    (seatAssignments (Index.generateAutomaticSeating st))
    (Z.of_nat i / seatsPerRow cfg + 1) (Z.of_nat i mod seatsPerRow cfg + 1) =
  nth_error (students st) i.
Proof.
  intros Hcfg Hi.
  pose proof (rowMajorEntry_inHall (students st) cfg i Hi) as Hin.
  assert (Hs : 1 <= seatsPerRow cfg) by (destruct Hin; cbn in *; lia).
  rewrite (generateAutomaticSeating_closed st cfg Hcfg).
  set (n := Nat.min (List.length (students st)) (capacity cfg)).
  destruct (Nat.lt_ge_cases i (List.length (students st))) as [Hlt | Hge].
  - apply (getSeatAssignment_entry _ (rowMajorEntry (students st) (seatsPerRow cfg) i)).
    + now apply rowMajor_coords_NoDup.
    + apply in_map. apply in_seq. unfold n. lia.
  - replace (nth_error (students st) i) with (@None Student)
      by (symmetry; now apply nth_error_None).
    destruct (SeatingChart.getSeatAssignment _ _ _) as [stu|] eqn:Hget;
      [ exfalso | reflexivity ].
    apply getSeatAssignment_Some in Hget.
    apply in_map_iff in Hget as (j & Hj & Hjn). apply in_seq in Hjn.
    assert (j = i); [ | unfold n in Hjn; lia ].
    apply (rowMajorEntry_coord_inj (students st) (seatsPerRow cfg)); [ exact Hs | ].
    rewrite Hj. reflexivity.
Qed.

Lemma chart_after_bulk_witness :
  SeatingChart.getSeatAssignment
    (seatAssignments (Index.generateAutomaticSeating threeInFour))
    (Z.of_nat 2 / 2 + 1) (Z.of_nat 2 mod 2 + 1) =
  nth_error [studentA; studentB; studentC] 2.
Proof.
  apply (chart_after_bulk threeInFour hall2x2 2); [ reflexivity | cbn; lia ].
Defined.

(** ** One-at-a-time placement *)

Lemma recognizeAll_snoc (l : list Student) (s : Student) (st : AppState) :
  recognizeAll (l ++ [s]) st =
  Index.handleStudentRecognized s (recognizeAll l st) (recognizeAll l st).
Proof. unfold recognizeAll. now rewrite fold_left_app. Qed.

Lemma rowMajor_prefix_snoc (l : list Student) (s : Student) (nSeats : Z)
    (k : nat) :
  (k <= List.length l)%nat ->
  map (rowMajorEntry (l ++ [s]) nSeats) (seq 0 k) =
  map (rowMajorEntry l nSeats) (seq 0 k).
Proof.
  intros Hk. apply map_ext_in. intros i Hi. apply in_seq in Hi.
  unfold rowMajorEntry. f_equal. apply nth_error_app1. lia.
Qed.

(** Recognised students placed one after the other into an empty hall
    fill it in row-major order, up to its capacity. *)
Lemma recognizeAll_closed (l : list Student) (st : AppState)
    (cfg : ExamHallData) :
  hallConfig st = Some cfg ->
  seatAssignments st = [] ->
  hallConfig (recognizeAll l st) = Some cfg /\
  seatAssignments (recognizeAll l st) =
  map (rowMajorEntry l (seatsPerRow cfg))
    (seq 0 (Nat.min (List.length l) (capacity cfg))).
Proof.
  intros Hcfg Hempty. induction l as [|s l [IHc IHa]] using rev_ind.
  - split; assumption.
  - rewrite recognizeAll_snoc.
    destruct (handleStudentRecognized_keeps s (recognizeAll l st)
                (recognizeAll l st)) as [_ Hkeep].
    split; [ now rewrite Hkeep | ].
    pose proof (findNextAvailableSeat_after_prefix (recognizeAll l st) cfg l
                  (Nat.min (List.length l) (capacity cfg)) IHc IHa
                  ltac:(lia) ltac:(lia)) as Hfind.
    unfold Index.handleStudentRecognized. rewrite IHc, Hfind, length_app.
    cbn [List.length].
    destruct (Nat.ltb_spec (Nat.min (List.length l) (capacity cfg)) (capacity cfg))
      as [Hlt | Hge]; cbn [seatAssignments].
    + rewrite IHa.
      replace (Nat.min (List.length l + 1) (capacity cfg))
        with (S (List.length l)) by lia.
      replace (Nat.min (List.length l) (capacity cfg))
        with (List.length l) by lia.
      rewrite seq_S, map_app, rowMajor_prefix_snoc by lia.
      f_equal. cbn [map]. rewrite Nat.add_0_l.
      unfold rowMajorEntry, coord. cbn [fst snd row seat].
      now rewrite nth_error_app2, Nat.sub_diag by lia.
    + rewrite IHa.
      replace (Nat.min (List.length l + 1) (capacity cfg))
        with (Nat.min (List.length l) (capacity cfg)) by lia.
      now rewrite rowMajor_prefix_snoc by lia.
Qed.

(** X11. Placing the students of a list one at a time with
    [handleStudentRecognized], each by the handler of the render that
    follows the previous placement, from a configured hall with no
    assignment, gives the assignment list that the bulk allocator builds
    for that list: the same seats in the same order, and the same
    students left out when the hall is too small. *)
Theorem one_at_a_time_is_bulk (l : list Student) (st : AppState)
    (cfg : ExamHallData) :
  hallConfig st = Some cfg ->
  seatAssignments st = [] ->
  seatAssignments (recognizeAll l st) =
  seatAssignments
    (Index.generateAutomaticSeating (mkAppState l (Some cfg) [])).
Proof.
  intros Hcfg Hempty.
  destruct (recognizeAll_closed l st cfg Hcfg Hempty) as [_ ->].
  now rewrite (generateAutomaticSeating_closed (mkAppState l (Some cfg) []) cfg).
Qed.

Lemma one_at_a_time_is_bulk_witness :
  seatAssignments (recognizeAll [studentA; studentB; studentC] noneInFour) =
  seatAssignments (Index.generateAutomaticSeating threeInFour).
Proof.
  apply (one_at_a_time_is_bulk [studentA; studentB; studentC] noneInFour hall2x2);
    reflexivity.
Defined.

Lemma find_snoc {A} (f : A -> bool) (l : list A) (x : A) :
  find f (l ++ [x]) =
  match find f l with
  | Some a => Some a
  | None => if f x then Some x else None
  end.
Proof.
  induction l as [|y l IH]; cbn; [ reflexivity | ].
  now destruct (f y).
Qed.

Lemma handleStudentRecognized_append (s : Student) (render latest : AppState)
    (p : Z * Z) :
  Index.findNextAvailableSeat render = Some p ->
  seatAssignments (Index.handleStudentRecognized s render latest) =
  seatAssignments latest ++ [mkSeatAssignment (fst p) (snd p) (Some s)].
Proof.
  intros Hfind. unfold Index.handleStudentRecognized.
  destruct (hallConfig render) as [cfg|] eqn:Hcfg.
  - now rewrite Hfind.
  - unfold Index.findNextAvailableSeat in Hfind. rewrite Hcfg in Hfind.
    discriminate Hfind.
Qed.

(** X12. In a reachable state whose finder returns a seat, a recognition
    handled in the current render appends exactly one entry: the student
    at that seat. The seat is in the hall, the chart showed nobody there
    before and shows the student afterwards, every other seat of the
    chart is unchanged, and the finder no longer returns that seat. *)
Theorem recognized_student_is_seated (s : Student) (st : AppState)
    (cfg : ExamHallData) (p : Z * Z) :
  Index.reachable st ->
  hallConfig st = Some cfg ->
  Index.findNextAvailableSeat st = Some p ->
  seatAssignments (Index.handleStudentRecognized s st st) =
    seatAssignments st ++ [mkSeatAssignment (fst p) (snd p) (Some s)] /\
  inHall cfg p /\
  SeatingChart.getSeatAssignment (seatAssignments st) (fst p) (snd p) = None /\
  SeatingChart.getSeatAssignment
    (seatAssignments (Index.handleStudentRecognized s st st)) (fst p) (snd p)
    = Some s /\
  (forall r c,
     (r, c) <> p ->
     SeatingChart.getSeatAssignment
       (seatAssignments (Index.handleStudentRecognized s st st)) r c =
     SeatingChart.getSeatAssignment (seatAssignments st) r c) /\
  Index.findNextAvailableSeat (Index.handleStudentRecognized s st st) <> Some p.
Proof.
  intros Hreach Hcfg Hfind.
  pose proof (findNextAvailableSeat_free st p Hfind) as Hfree.
  pose proof (handleStudentRecognized_append s st st p Hfind) as Hnew.
  assert (Hold : find (fun a => (row a =? fst p) && (seat a =? snd p))
                   (seatAssignments st) = None).
  { destruct (find _ (seatAssignments st)) as [a|] eqn:Ha; [ exfalso | reflexivity ].
    apply find_some in Ha as [Hin Heq].
    apply andb_prop in Heq as [Hr Hs]. apply Z.eqb_eq in Hr, Hs.
    apply Hfree. exists a. split; [ exact Hin | split ].
    - unfold coord. rewrite Hr, Hs. now destruct p.
    - apply hasStudent_true. pose proof (reachable_allSeated st Hreach) as Hall.
      unfold allSeated in Hall. rewrite Forall_forall in Hall. now apply Hall. }
  split; [ exact Hnew | split; [ | split; [ | split; [ | split ] ] ] ].
  - now apply findNextAvailableSeat_inHall with st.
  - unfold SeatingChart.getSeatAssignment. now rewrite Hold.
  - rewrite Hnew. unfold SeatingChart.getSeatAssignment.
    rewrite find_snoc, Hold. cbn [row seat]. now rewrite !Z.eqb_refl.
  - intros r c Hne. rewrite Hnew. unfold SeatingChart.getSeatAssignment.
    rewrite find_snoc.
    destruct (find (fun a => (row a =? r) && (seat a =? c)) (seatAssignments st));
      [ reflexivity | ].
    cbn [row seat].
    destruct ((fst p =? r) && (snd p =? c)) eqn:Heq; [ exfalso | reflexivity ].
    apply andb_prop in Heq as [Hr Hc]. apply Z.eqb_eq in Hr, Hc.
    apply Hne. subst. now destruct p.
  - intros Hagain. apply findNextAvailableSeat_free in Hagain. apply Hagain.
    exists (mkSeatAssignment (fst p) (snd p) (Some s)).
    split; [ rewrite Hnew; apply in_or_app; right; now left | ].
    split; [ now destruct p | discriminate ].
Qed.

Lemma seatedThree_reachable : Index.reachable seatedThree.
Proof. eexists. session_of. Qed.

Lemma recognized_student_is_seated_witness :
  seatAssignments (Index.handleStudentRecognized studentA seatedThree seatedThree) =
    seatAssignments seatedThree ++ [mkSeatAssignment 2 2 (Some studentA)] /\
  inHall hall2x2 (2, 2) /\
  SeatingChart.getSeatAssignment (seatAssignments seatedThree) 2 2 = None /\
  SeatingChart.getSeatAssignment
    (seatAssignments
       (Index.handleStudentRecognized studentA seatedThree seatedThree)) 2 2
    = Some studentA /\
  (forall r c,
     (r, c) <> (2, 2) ->
     SeatingChart.getSeatAssignment
       (seatAssignments
          (Index.handleStudentRecognized studentA seatedThree seatedThree)) r c =
     SeatingChart.getSeatAssignment (seatAssignments seatedThree) r c) /\
  Index.findNextAvailableSeat
    (Index.handleStudentRecognized studentA seatedThree seatedThree)
    <> Some (2, 2).
Proof.
  apply (recognized_student_is_seated studentA seatedThree hall2x2 (2, 2));
    [ exact seatedThree_reachable | reflexivity | reflexivity ].
Defined.

(** ** The dashboard *)

(** X13. Without a hall configuration or without students, a click on
    "Generate Seating" only raises a destructive toast: the callback is
    not invoked and the page state, assignments included, is unchanged. *)
Theorem dashboard_generate_guard (st : AppState) :
  hallConfig st = None \/ students st = [] ->
  clickGenerateSeating st = st /\
  ~ In Dashboard.OnGenerateSeating (Dashboard.handleGenerateSeating st) /\
  exists title,
    Dashboard.handleGenerateSeating st = [Dashboard.Toast title true].
Proof.
  intros Hguard. unfold clickGenerateSeating, Dashboard.handleGenerateSeating.
  destruct (hallConfig st) as [cfg|].
  - destruct Hguard as [Hc | Hs]; [ discriminate | ]. rewrite Hs. cbn.
    split; [ reflexivity | split; [ | now eexists ] ].
    intros [H | []]. discriminate H.
  - cbn. split; [ reflexivity | split; [ | now eexists ] ].
    intros [H | []]. discriminate H.
Qed.

Lemma dashboard_generate_guard_witness :
  clickGenerateSeating noneInFour = noneInFour /\
  ~ In Dashboard.OnGenerateSeating (Dashboard.handleGenerateSeating noneInFour) /\
  exists title,
    Dashboard.handleGenerateSeating noneInFour = [Dashboard.Toast title true].
Proof.
  apply (dashboard_generate_guard noneInFour). right. reflexivity.
Defined.

(** X14. With a hall of at least one seat and at least one student, after
    a click on "Generate Seating" the dashboard counts min(N, R*C)
    assigned seats and reports "System Ready" when every student has a
    seat (N <= R*C) and "Partial Assignment" otherwise. *)
Theorem dashboard_status_after_generate (st : AppState) (cfg : ExamHallData) :
  hallConfig st = Some cfg ->
  1 <= rows cfg ->
  1 <= seatsPerRow cfg ->
  students st <> [] ->
  Dashboard.assignedSeats (clickGenerateSeating st) =
    Nat.min (List.length (students st)) (capacity cfg) /\
  Dashboard.getSystemStatus (clickGenerateSeating st) =
    if (List.length (students st) <=? capacity cfg)%nat
    then Dashboard.mkSystemStatus Dashboard.success "System Ready"
    else Dashboard.mkSystemStatus Dashboard.warning "Partial Assignment".
Proof.
  intros Hcfg Hr Hs Hne.
  destruct (clickGenerateSeating_cases st) as [[_ [Hc | Hn]] | [-> _]];
    [ congruence | contradiction | ].
  assert (Hcount : Dashboard.assignedSeats (Index.generateAutomaticSeating st) =
                   Nat.min (List.length (students st)) (capacity cfg)).
  { unfold Dashboard.assignedSeats. rewrite forallb_filter_id.
    - rewrite (generateAutomaticSeating_closed st cfg Hcfg).
      now rewrite length_map, length_seq.
    - apply forallb_forall. apply Forall_forall.
      now apply generateAutomaticSeating_hasStudent with cfg. }
  split; [ exact Hcount | ].
  unfold Dashboard.getSystemStatus. rewrite Hcount.
  destruct (generateAutomaticSeating_keeps st) as [-> ->]. rewrite Hcfg.
  assert (Hn : (1 <= List.length (students st))%nat)
    by (destruct (students st); [ contradiction | cbn; lia ]).
  assert (Hcap : (1 <= capacity cfg)%nat) by (unfold capacity; nia).
  destruct (Nat.eqb_spec (List.length (students st)) 0); [ lia | ].
  destruct (Nat.eqb_spec (Nat.min (List.length (students st)) (capacity cfg)) 0);
    [ lia | ].
  destruct (Nat.leb_spec (List.length (students st)) (capacity cfg));
    destruct (Nat.ltb_spec (Nat.min (List.length (students st)) (capacity cfg))
                (List.length (students st))); try reflexivity; lia.
Qed.

Lemma dashboard_status_after_generate_witness :
  Dashboard.assignedSeats (clickGenerateSeating threeInTwo) = 2%nat /\
  Dashboard.getSystemStatus (clickGenerateSeating threeInTwo) =
    Dashboard.mkSystemStatus Dashboard.warning "Partial Assignment".
Proof.
  apply (dashboard_status_after_generate threeInTwo hall1x2);
    [ reflexivity | cbn; lia | cbn; lia | discriminate ].
Defined.

(** X15. The "Recent Activity" list holds the last five students at most,
    newest first; after a registration the new student heads it, followed
    by the first four of the list as it was. *)
Theorem recentActivity_newest_first (s : Student) (st : AppState) :
  Dashboard.recentActivity st = firstn 5 (rev (students st)) /\
  (List.length (Dashboard.recentActivity st) <= 5)%nat /\
  Dashboard.recentActivity (Index.handleStudentAdded s st) =
    s :: firstn 4 (Dashboard.recentActivity st).
Proof.
  assert (Hrecent : forall st', Dashboard.recentActivity st' =
                                firstn 5 (rev (students st'))).
  { intros st'. unfold Dashboard.recentActivity. now rewrite firstn_rev. }
  split; [ apply Hrecent | split ].
  - rewrite Hrecent, length_firstn. lia.
  - rewrite !Hrecent. cbn [Index.handleStudentAdded students].
    rewrite rev_app_distr. cbn [rev app]. rewrite firstn_cons. f_equal.
    now rewrite firstn_firstn.
Qed.

(** ** The export *)

(** X16. In every state reachable through the handlers the export holds
    the whole assignment list: the filter on a non-null student drops
    nothing. *)
Theorem export_reachable_complete (now1 now2 : string) (st : AppState) :
  Index.reachable st ->
  Index.assignments (Index.content (Index.exportSeatingData now1 now2 st)) =
  seatAssignments st.
Proof.
  intros Hreach. cbn.
  exact (allSeated_filter st (reachable_allSeated st Hreach)).
Qed.

Lemma export_reachable_complete_witness :
  Index.assignments
    (Index.content
       (Index.exportSeatingData "2026-01-01T08:00:00.000Z"
          "2026-01-01T08:00:00.001Z" seatedThree)) =
  seatAssignments seatedThree.
Proof.
  apply (export_reachable_complete _ _ seatedThree).
  exact seatedThree_reachable.
Defined.

(** The text before the first ['T'] of [date ++ "T" ++ time] is [date]
    when [date] has no ['T']. *)
Lemma beforeT_date (date time : string) :
  (forall n, String.get n date <> Some "T"%char) ->
  Index.beforeT (String.append date (String "T" time)) = date.
Proof.
  induction date as [|c date IH]; intros HnoT; cbn.
  - reflexivity.
  - destruct (Ascii.eqb_spec c "T") as [-> | Hc].
    + exfalso. now apply (HnoT 0%nat).
    + f_equal. apply IH. intros n. exact (HnoT (S n)).
Qed.

(** X17. The downloaded file is named
    [seating-arrangement-<hall>-<date>.json], where <date> is the part of
    the ISO time stamp before its ['T'] and <hall> is the hall's name, or
    [exam-hall] when no hall is configured or its name is empty. *)
Theorem export_file_name (now1 date time : string) (st : AppState) :
  (forall n, String.get n date <> Some "T"%char) ->
  Index.download
    (Index.exportSeatingData now1 (String.append date (String "T" time)) st) =
  String.append "seating-arrangement-"
    (String.append (Index.exportHallName (hallConfig st))
       (String.append "-" (String.append date ".json"))) /\
  (forall cfg,
     hallConfig st = Some cfg -> hallName cfg <> "" ->
     Index.exportHallName (hallConfig st) = hallName cfg) /\
  (forall cfg,
     hallConfig st = Some cfg -> hallName cfg = "" ->
     Index.exportHallName (hallConfig st) = "exam-hall") /\
  (hallConfig st = None -> Index.exportHallName (hallConfig st) = "exam-hall").
Proof.
  intros HnoT. unfold Index.exportSeatingData. cbn [Index.download].
  rewrite beforeT_date by exact HnoT.
  split; [ reflexivity | split; [ | split ] ].
  - intros cfg -> Hn. cbn. now rewrite (eqb_empty_false _ Hn).
  - intros cfg -> Hn. cbn. now rewrite Hn.
  - now intros ->.
Qed.

Lemma export_file_name_witness :
  Index.download
    (Index.exportSeatingData "2026-01-01T08:00:00.000Z"
       (String.append "2026-01-01" (String "T" "08:00:00.001Z")) seatedThree) =
  String.append "seating-arrangement-"
    (String.append (Index.exportHallName (hallConfig seatedThree))
       (String.append "-" (String.append "2026-01-01" ".json"))) /\
  (forall cfg,
     hallConfig seatedThree = Some cfg -> hallName cfg <> "" ->
     Index.exportHallName (hallConfig seatedThree) = hallName cfg) /\
  (forall cfg,
     hallConfig seatedThree = Some cfg -> hallName cfg = "" ->
     Index.exportHallName (hallConfig seatedThree) = "exam-hall") /\
  (hallConfig seatedThree = None ->
   Index.exportHallName (hallConfig seatedThree) = "exam-hall").
Proof.
  apply (export_file_name "2026-01-01T08:00:00.000Z" "2026-01-01"
           "08:00:00.001Z" seatedThree).
  intros n. do 10 (destruct n as [|n]; [ discriminate | ]). discriminate.
Defined.

(** ** The pre-filled hall form *)

(** X18. In a state reached through the user interface, submitting the
    hall form as it is pre-filled from the current configuration stores
    that same configuration again and empties the assignment list; with
    no configuration yet, the pre-filled form (no name, 10 rows, 8 seats)
    is rejected and the state is unchanged. *)
Theorem prefilled_hall_form_resubmit (st : AppState) :
  uiReachable st ->
  submit (HallSubmission (ExamHallConfig.initialFormData (hallConfig st))) st =
  match hallConfig st with
  | Some cfg => mkAppState (students st) (Some cfg) []
  | None => st
  end.
Proof.
  intros Hui. destruct (uiReachable_inv st Hui) as [_ Hvalid].
  destruct (hallConfig st) as [cfg|]; [ | reflexivity ].
  destruct (Hvalid cfg eq_refl) as (Hn & Hr & Hs & Htot).
  destruct cfg as [n r c t]. cbn in Hn, Hr, Hs, Htot. subst t.
  cbn [submit ExamHallConfig.initialFormData]. unfold Index.submitHallForm.
  destruct (Z.eqb_spec r 0); [ lia | ]. destruct (Z.eqb_spec c 0); [ lia | ].
  rewrite hall_handleSubmit_valid by assumption. reflexivity.
Qed.

Lemma prefilled_hall_form_resubmit_witness :
  submit (HallSubmission (ExamHallConfig.initialFormData (hallConfig uiSession)))
    uiSession =
  match hallConfig uiSession with
  | Some cfg => mkAppState (students uiSession) (Some cfg) []
  | None => uiSession
  end.
Proof.
  apply (prefilled_hall_form_resubmit uiSession). exact uiSession_reachable.
Defined.

(** ** Recognising a student twice *)

(** X19. [handleStudentRecognized] does not look for the student in the
    assignment list: when the same student is recognised twice, each time
    by the handler of the current render, and the finder returns a seat
    each time, the student ends up with two entries, at two different
    seats. *)
Theorem recognized_twice_two_seats (s : Student) (st : AppState) (p q : Z * Z) :
  Index.findNextAvailableSeat st = Some p ->
  Index.findNextAvailableSeat (Index.handleStudentRecognized s st st) = Some q ->
  p <> q /\
  seatAssignments
    (Index.handleStudentRecognized s
       (Index.handleStudentRecognized s st st)
       (Index.handleStudentRecognized s st st)) =
  seatAssignments st ++
    [mkSeatAssignment (fst p) (snd p) (Some s);
     mkSeatAssignment (fst q) (snd q) (Some s)].
Proof.
  intros Hp Hq. split.
  - intros <-. apply findNextAvailableSeat_free in Hq. apply Hq.
    exists (mkSeatAssignment (fst p) (snd p) (Some s)).
    rewrite (handleStudentRecognized_append s st st p Hp).
    split; [ apply in_or_app; right; now left | ].
    split; [ now destruct p | discriminate ].
  - rewrite (handleStudentRecognized_append s _ _ q Hq).
    rewrite (handleStudentRecognized_append s st st p Hp).
    now rewrite <- app_assoc.
Qed.

Lemma recognized_twice_two_seats_witness :
  (1, 1) <> (1, 2) /\
  seatAssignments
    (Index.handleStudentRecognized studentA
       (Index.handleStudentRecognized studentA emptyHall emptyHall)
       (Index.handleStudentRecognized studentA emptyHall emptyHall)) =
  seatAssignments emptyHall ++
    [mkSeatAssignment 1 1 (Some studentA);
     mkSeatAssignment 1 2 (Some studentA)].
Proof.
  apply (recognized_twice_two_seats studentA emptyHall (1, 1) (1, 2));
    reflexivity.
Defined.

(** ** Scans that report to the handler of one render *)

(** X20. When two recognitions are handled by the handler of the same
    render and its finder returns a seat, both entries are appended at
    that seat, whatever the latest list holds: the assignment list then
    has two entries with the same coordinates. *)
Theorem same_render_same_seat (s1 s2 : Student) (render latest : AppState)
    (p : Z * Z) :
  Index.findNextAvailableSeat render = Some p ->
  seatAssignments
    (Index.handleStudentRecognized s2 render
       (Index.handleStudentRecognized s1 render latest)) =
  seatAssignments latest ++
    [mkSeatAssignment (fst p) (snd p) (Some s1);
     mkSeatAssignment (fst p) (snd p) (Some s2)] /\
  ~ NoDup
      (map coord
         (seatAssignments
            (Index.handleStudentRecognized s2 render
               (Index.handleStudentRecognized s1 render latest)))).
Proof.
  intros Hp.
  assert (Hnew : seatAssignments
            (Index.handleStudentRecognized s2 render
               (Index.handleStudentRecognized s1 render latest)) =
          seatAssignments latest ++
            [mkSeatAssignment (fst p) (snd p) (Some s1);
             mkSeatAssignment (fst p) (snd p) (Some s2)]).
  { rewrite !(handleStudentRecognized_append _ render _ p Hp).
    now rewrite <- app_assoc. }
  split; [ exact Hnew | ].
  rewrite Hnew, map_app. intros Hnd. apply NoDup_app_remove_l in Hnd.
  cbn in Hnd. apply NoDup_cons_iff in Hnd as [Hin _]. apply Hin. now left.
Qed.

Lemma same_render_same_seat_witness :
  seatAssignments
    (Index.handleStudentRecognized studentB oneRegistered
       (Index.handleStudentRecognized studentA oneRegistered oneRegistered)) =
  seatAssignments oneRegistered ++
    [mkSeatAssignment 1 1 (Some studentA);
     mkSeatAssignment 1 1 (Some studentB)] /\
  ~ NoDup
      (map coord
         (seatAssignments
            (Index.handleStudentRecognized studentB oneRegistered
               (Index.handleStudentRecognized studentA oneRegistered
                  oneRegistered)))).
Proof.
  apply (same_render_same_seat studentA studentB oneRegistered oneRegistered
           (1, 1)).
  reflexivity.
Defined.
